(** * diet_reminder_bot: the scheduling loop and its dedup ledger

    A shallow embedding of [src/diet_reminder_bot.py].

    - Strings the loop builds and compares (plan literals, [isoformat],
      [strftime], keys) are Rocq strings; the set [sent_keys : set[str]]
      is a [gset string].  The string that [_normalize_whatsapp_number]
      strips comes from the environment and is a list of code points.
    - Python integers are [Z]; a [date] and a [datetime] are records of
      their fields.
    - The [while True] loop is a step function, [iteration], run over a
      finite list of polls: what the clock reads and how the Twilio
      client behaves at that turn.  It yields the loop state afterwards
      and the trace of observable events (log lines, calls of
      [trigger_event], sleeps).
    - An exception is a way for a block to end ([Propagates]); the
      [try]/[except Exception]/[finally] statement is written out.
    - [time.sleep] raises on a length it refuses (negative, or too
      large for its clock); it stands outside the [try], so such an
      exception ends [run].
    - [load_config] reads [os.environ] as a finite map from names to
      strings; [date.fromisoformat] and [int] are parameters of it, and
      the strings it stores in [AppConfig] are the UTF-8 bytes of the
      Python strings. *)

From Stdlib Require Import ZArith Ascii String List Lia.
From stdpp Require Import base decidable option list gmap sets strings.
Import ListNotations.

Local Open Scope string_scope.
Local Open Scope list_scope.
Local Open Scope Z_scope.

(** ** Calendar values: [datetime.date] and [datetime.datetime] *)

Record date := mkdate { year : Z; month : Z; day : Z }.

Record datetime := mkdatetime {
  dt_year : Z; dt_month : Z; dt_day : Z;
  dt_hour : Z; dt_minute : Z; dt_second : Z; dt_microsecond : Z
}.

#[global] Instance date_eq_dec : EqDecision date.
Proof. solve_decision. Defined.

#[global] Instance datetime_eq_dec : EqDecision datetime.
Proof. solve_decision. Defined.

(** The constructor of [datetime.date] accepts exactly these values
    (MINYEAR = 1, MAXYEAR = 9999; the day bound per month is not needed
    here). *)
Definition valid_date (d : date) : Prop :=
  1 <= year d <= 9999 /\ 1 <= month d <= 12 /\ 1 <= day d <= 31.

(** [a < b] on dates: the tuples (year, month, day) compared
    lexicographically. *)
Definition date_lt (a b : date) : bool :=
  if year a <? year b then true
  else if year b <? year a then false
  else if month a <? month b then true
  else if month b <? month a then false
  else day a <? day b.

(** [now_local.date()] *)
Definition datetime_date (t : datetime) : date :=
  mkdate (dt_year t) (dt_month t) (dt_day t).

(** [t.replace(second=0, microsecond=0)] *)
Definition replace_second_microsecond (t : datetime) : datetime :=
  mkdatetime (dt_year t) (dt_month t) (dt_day t) (dt_hour t) (dt_minute t) 0 0.

(** *** Zero-padded decimal fields

    [%02d] and [%04d] on the ranges that the field types allow (two and
    four digits). *)
Definition digit (n : Z) : ascii := ascii_of_nat (48 + Z.to_nat (n mod 10)).

Definition fmt02 (n : Z) (rest : string) : string :=
  String (digit (n / 10)) (String (digit n) rest).

Definition fmt04 (n : Z) (rest : string) : string :=
  String (digit (n / 1000)) (String (digit (n / 100)) (fmt02 n rest)).

(** [d.isoformat()], "YYYY-MM-DD" *)
Definition isoformat (d : date) : string :=
  fmt04 (year d) (String "-" (fmt02 (month d) (String "-" (fmt02 (day d) "")))).

(** [t.strftime("%H:%M")] *)
Definition strftime_HM (t : datetime) : string :=
  fmt02 (dt_hour t) (String ":" (fmt02 (dt_minute t) "")).

(** [t.strftime("%I:%M %p")]: twelve-hour clock, AM/PM of the C locale *)
Definition hour12 (h : Z) : Z := if h mod 12 =? 0 then 12 else h mod 12.

Definition strftime_IMp (t : datetime) : string :=
  fmt02 (hour12 (dt_hour t))
    (String ":" (fmt02 (dt_minute t) (if dt_hour t <? 12 then " AM" else " PM"))).

(** ** The plan *)

Record ReminderItem := mkReminderItem {
  time_24h : string;
  title : string;
  details : string
}.

#[global] Instance ReminderItem_eq_dec : EqDecision ReminderItem.
Proof. solve_decision. Defined.

Definition DAILY_PLAN : list ReminderItem := [
  mkReminderItem "08:30" "Morning dry fruits and seeds"
    "It is 8:30 AM. Please take soaked almonds, walnuts, cranberry, seeds, and figs.";
  mkReminderItem "09:30" "Breakfast"
    "It is 9:30 AM. Please have breakfast now.";
  mkReminderItem "10:30" "Coconut water"
    "It is 10:30 AM. Please drink coconut water now.";
  mkReminderItem "11:30" "Folic acid and iron"
    "It is 11:30 AM. Please take folic acid medicine and iron medicine now.";
  mkReminderItem "13:30" "Lunch, salad, and iron"
    "It is 1:30 PM. Please have lunch and salad, and also take iron medicine.";
  mkReminderItem "15:00" "Afternoon fruits"
    "It is 3:00 PM. Please eat orange, anaar, and apple.";
  mkReminderItem "17:00" "Snack and tea"
    "It is 5:00 PM. Please have snack and tea now.";
  mkReminderItem "20:15" "Magnesium before dinner"
    "It is before dinner time. Please take magnesium medicine now.";
  mkReminderItem "20:30" "Dinner with eggs and salad"
    "It is 8:30 PM. Please have dinner, 2 eggs, and salad.";
  mkReminderItem "22:00" "Milk"
    "It is 10:00 PM. Please drink milk now.";
  mkReminderItem "22:30" "Ecosprin before sleep"
    "It is bedtime. Please take ecosprin medicine before sleep."
].

(** ** Configuration *)

Record AppConfig := mkAppConfig {
  twilio_account_sid : string;
  twilio_auth_token : string;
  twilio_whatsapp_number : string;
  sister_whatsapp_number : string;
  timezone : string;
  start_date : date;
  calcium_reminder_weekday : Z;
  calcium_reminder_time : string;
  poll_interval_seconds : Z
}.

(** ** Configuration loading: WhatsApp numbers

    Values read from the environment are arbitrary Python strings, so
    here a [str] is the list of its code points. *)

Definition pystr := list N.

(** A literal of the source (ASCII only). *)
Definition lit (s : string) : pystr := N_of_ascii <$> list_ascii_of_string s.

(** The characters [str.strip()] removes: those for which
    [str.isspace()] holds. *)
Definition isspace (ch : N) : bool :=
  ((9 <=? ch) && (ch <=? 13)
   || (28 <=? ch) && (ch <=? 32)
   || (ch =? 133) || (ch =? 160) || (ch =? 5760)
   || (8192 <=? ch) && (ch <=? 8202)
   || (ch =? 8232) || (ch =? 8233) || (ch =? 8239) || (ch =? 8287)
   || (ch =? 12288))%N.

Fixpoint lstrip (s : pystr) : pystr :=
  match s with
  | [] => []
  | ch :: rest => if isspace ch then lstrip rest else s
  end.

Definition rstrip (s : pystr) : pystr := rev (lstrip (rev s)).

(** [s.strip()] *)
Definition strip (s : pystr) : pystr := rstrip (lstrip s).

(** [s.startswith(prefix)] *)
Fixpoint startswith (s prefix : pystr) {struct prefix} : bool :=
  match prefix, s with
  | [], _ => true
  | _ :: _, [] => false
  | p :: prefix', ch :: s' => (ch =? p)%N && startswith s' prefix'
  end.

(** A returned value, or a raised [ValueError] with its message. *)
Inductive result (A : Type) :=
| Ok (value : A)
| ValueError (message : pystr).

Arguments Ok {A} _.
Arguments ValueError {A} _.

Definition _normalize_whatsapp_number (raw env_name : pystr) : result pystr :=
  let value := strip raw in
  if startswith value (lit "whatsapp:") then Ok value
  else if negb (startswith value (lit "+")) then
    ValueError
      (env_name ++
       lit " must be in E.164 format like +91XXXXXXXXXX or whatsapp:+91XXXXXXXXXX")
  else Ok (lit "whatsapp:" ++ value).

(** ** Configuration loading: the environment

    [os.environ] as it stands after [load_dotenv]: variable names (the
    literals of the source) to values. *)

(** [os.getenv(name, default)] *)
Definition getenv (environ : gmap string pystr) (name : string) (default : pystr)
  : pystr :=
  match environ !! name with
  | Some value => value
  | None => default
  end.

Definition _require_env (environ : gmap string pystr) (name : string)
  : result pystr :=
  let value := strip (getenv environ name []) in
  match value with
  | [] => ValueError (lit "Missing required environment variable: " ++ lit name)
  | _ :: _ => Ok value
  end.

(** Running one computation after another; the first exception raised
    is the one that leaves. *)
#[global] Instance result_bind : MBind result := fun A B f r =>
  match r with
  | Ok value => f value
  | ValueError message => ValueError message
  end.

(** The bytes of a Python string in UTF-8: the Rocq string that stands
    for it in [AppConfig]. *)
Definition utf8_char (ch : N) : list N :=
  (if ch <? 128 then [ch]
   else if ch <? 2048 then [192 + ch / 64; 128 + ch mod 64]
   else if ch <? 65536 then
     [224 + ch / 4096; 128 + (ch / 64) mod 64; 128 + ch mod 64]
   else
     [240 + ch / 262144; 128 + (ch / 4096) mod 64; 128 + (ch / 64) mod 64;
      128 + ch mod 64])%N.

Fixpoint utf8 (s : pystr) : string :=
  match s with
  | [] => EmptyString
  | ch :: rest =>
      string_of_list_ascii (ascii_of_N <$> utf8_char ch) +:+ utf8 rest
  end.

Section LoadConfig.

(** [date.fromisoformat] and [int] on strings, each returning its value
    or raising [ValueError]. *)
Variable fromisoformat : pystr → result date.
Variable int : pystr → result Z.

(** The keyword arguments are evaluated in the order written. *)
Definition load_config (environ : gmap string pystr) : result AppConfig :=
  sid ← _require_env environ "TWILIO_ACCOUNT_SID";
  token ← _require_env environ "TWILIO_AUTH_TOKEN";
  twilio_raw ← _require_env environ "TWILIO_WHATSAPP_NUMBER";
  twilio ← _normalize_whatsapp_number twilio_raw (lit "TWILIO_WHATSAPP_NUMBER");
  sister_raw ← _require_env environ "SISTER_WHATSAPP_NUMBER";
  sister ← _normalize_whatsapp_number sister_raw (lit "SISTER_WHATSAPP_NUMBER");
  let tz := getenv environ "TIMEZONE" (lit "Asia/Kolkata") in
  start ← fromisoformat (getenv environ "START_DATE" (lit "2026-02-21"));
  weekday ← int (getenv environ "CALCIUM_REMINDER_WEEKDAY" (lit "5"));
  let calcium_time := getenv environ "CALCIUM_REMINDER_TIME" (lit "09:00") in
  interval ← int (getenv environ "POLL_INTERVAL_SECONDS" (lit "20"));
  Ok (mkAppConfig (utf8 sid) (utf8 token) (utf8 twilio) (utf8 sister) (utf8 tz)
        start weekday (utf8 calcium_time) interval).

End LoadConfig.

(** The variables [load_config] reads with a default, and the
    defaults. *)
Definition default_environ : gmap string pystr :=
  <["TIMEZONE" := lit "Asia/Kolkata"]>
    (<["START_DATE" := lit "2026-02-21"]>
       (<["CALCIUM_REMINDER_WEEKDAY" := lit "5"]>
          (<["CALCIUM_REMINDER_TIME" := lit "09:00"]>
             (<["POLL_INTERVAL_SECONDS" := lit "20"]> ∅)))).

(** ** Sending *)

Definition newline : string := String (ascii_of_nat 10) "".

Definition build_whatsapp_message (item : ReminderItem) (now_local : datetime) : string :=
  let human_time := strftime_IMp now_local in
  "Reminder (" +:+ human_time +:+ "): " +:+ title item +:+ newline
  +:+ details item +:+ newline
  +:+ "Please take care.".

(** What one call of [client.messages.create] does: it returns, or it
    raises an exception of class [Exception] (the class the handler in
    [run] catches). *)
Inductive send_result :=
| Returned
| Raised (exc : string).

(** The Twilio client at one poll: [messages.create(from_, to, body)]. *)
Definition client := string -> string -> string -> send_result.

Definition send_whatsapp (c : client) (to_whatsapp from_whatsapp message : string)
  : send_result :=
  c from_whatsapp to_whatsapp message.

Definition trigger_event (c : client) (now_local : datetime) (item : ReminderItem)
    (config : AppConfig) : send_result :=
  let wa_msg := build_whatsapp_message item now_local in
  send_whatsapp c (sister_whatsapp_number config) (twilio_whatsapp_number config) wa_msg.

(** ** The loop *)

(** Observable events of the loop, in program order; [Sleep] is a pause
    that [time.sleep] took and returned from. *)
Inductive event :=
| LogAttempt (key : string)
| Dispatch (now_local : datetime) (item : ReminderItem)
| LogSuccess (key : string)
| LogFailed (key : string) (exc : string)
| Sleep (seconds : Z).

#[global] Instance event_eq_dec : EqDecision event.
Proof. solve_decision. Defined.

(** The two locals of [run] that live across iterations. *)
Record loop_state := mkstate {
  sent_keys : gset string;
  last_seen_date : option date
}.

Definition initial_state : loop_state := mkstate ∅ None.

(** One turn of the loop reads the clock and may call the client. *)
Record poll := mkpoll {
  clock_now : datetime;
  poll_client : client
}.

(** [f"{today.isoformat()}-{item.time_24h}-{item.title}"] *)
Definition dispatch_key (today : date) (item : ReminderItem) : string :=
  isoformat today +:+ "-" +:+ time_24h item +:+ "-" +:+ title item.

Arguments dispatch_key : simpl never.

(** How a block of statements ends: it runs to its end, or an exception
    leaves it. *)
Inductive completion :=
| Normal
| Propagates (exc : string).

(** What running a piece of the loop yields: how it ended, the value of
    the state it works on, and the events it produced. *)
Record outcome (S : Type) := mkoutcome {
  ending : completion;
  after : S;
  events : list event
}.

Arguments mkoutcome {S} _ _ _.
Arguments ending {S} _.
Arguments after {S} _.
Arguments events {S} _.

(** [time.sleep(seconds)] on an [int], as CPython does it on a 64-bit
    platform: the seconds are first converted to a signed 64-bit count
    of nanoseconds, which raises [OverflowError] when they do not fit;
    a negative length then raises [ValueError]; otherwise the call
    returns when the pause is over. *)
Definition sleep_max : Z := 9223372036.

Definition time_sleep (seconds : Z) : completion :=
  if (seconds <? - sleep_max) || (sleep_max <? seconds) then
    Propagates "OverflowError: timestamp too large to convert to C _PyTime_t"
  else if seconds <? 0 then
    Propagates "ValueError: sleep length must be non-negative"
  else Normal.

Section Loop.

Variable config : AppConfig.
Variable plan : list ReminderItem.

(** [time.sleep(config.poll_interval_seconds)], which no [try] encloses:
    how the call ends, and the [Sleep] event of a pause that was taken. *)
Definition pause : completion * list event :=
  let seconds := poll_interval_seconds config in
  match time_sleep seconds with
  | Normal => (Normal, [Sleep seconds])
  | Propagates exc => (Propagates exc, [])
  end.

(** The body of the [try]: the call, then the success line. *)
Definition try_body (c : client) (now_local : datetime) (key : string)
    (item : ReminderItem) : completion * list event :=
  match trigger_event c now_local item config with
  | Returned => (Normal, [Dispatch now_local item; LogSuccess key])
  | Raised exc => (Propagates exc, [Dispatch now_local item])
  end.

(** [except Exception as exc:] around a body. *)
Definition except_Exception (key : string) (body : completion * list event)
  : completion * list event :=
  match body.1 with
  | Normal => body
  | Propagates exc => (Normal, body.2 ++ [LogFailed key exc])
  end.

(** The attempt for one item: the log line, the [try] statement, and
    [sent_keys.add(key)] in its [finally]. *)
Definition attempt (c : client) (now_local : datetime) (key : string)
    (item : ReminderItem) (sent : gset string) : outcome (gset string) :=
  let r := except_Exception key (try_body c now_local key item) in
  mkoutcome r.1 ({[ key ]} ∪ sent) (LogAttempt key :: r.2).

(** [for item in DAILY_PLAN: ...]; an exception that leaves an attempt
    leaves the loop. *)
Fixpoint for_items (c : client) (now_local : datetime) (today : date)
    (current_hm : string) (items : list ReminderItem) (sent : gset string)
  : outcome (gset string) :=
  match items with
  | [] => mkoutcome Normal sent []
  | item :: rest =>
      if bool_decide (time_24h item ≠ current_hm) then
        for_items c now_local today current_hm rest sent
      else
        let key := dispatch_key today item in
        if bool_decide (key ∈ sent) then
          for_items c now_local today current_hm rest sent
        else
          let a := attempt c now_local key item sent in
          match ending a with
          | Propagates _ => a
          | Normal =>
              let r := for_items c now_local today current_hm rest (after a) in
              mkoutcome (ending r) (after r) (events a ++ events r)
          end
  end.

(** The day-boundary block: [if last_seen_date != today: ...] *)
Definition day_boundary (today : date) (s : loop_state) : loop_state :=
  if bool_decide (last_seen_date s ≠ Some today) then mkstate ∅ (Some today)
  else s.

(** The body of [while True]; both of its paths end in the call of
    [time.sleep]. *)
Definition iteration (p : poll) (s : loop_state) : outcome loop_state :=
  let now_local := replace_second_microsecond (clock_now p) in
  let today := datetime_date now_local in
  let current_hm := strftime_HM now_local in
  if date_lt today (start_date config) then
    mkoutcome pause.1 s pause.2
  else
    let s1 := day_boundary today s in
    let r := for_items (poll_client p) now_local today current_hm plan
               (sent_keys s1) in
    let s2 := mkstate (after r) (last_seen_date s1) in
    match ending r with
    | Propagates _ => mkoutcome (ending r) s2 (events r)
    | Normal => mkoutcome pause.1 s2 (events r ++ pause.2)
    end.

(** Finitely many turns of the loop, one per poll; an exception that
    leaves an iteration ends [run]. *)
Fixpoint run_polls (ps : list poll) (s : loop_state) : outcome loop_state :=
  match ps with
  | [] => mkoutcome Normal s []
  | p :: rest =>
      let r1 := iteration p s in
      match ending r1 with
      | Propagates _ => r1
      | Normal =>
          let r2 := run_polls rest (after r1) in
          mkoutcome (ending r2) (after r2) (events r1 ++ events r2)
      end
  end.

End Loop.

(** [run], from the start of the loop, on the program's own plan. *)
Definition run (config : AppConfig) (ps : list poll) : outcome loop_state :=
  run_polls config DAILY_PLAN ps initial_state.

(** ** Reading traces *)

(** The ledger key a [Dispatch] event was made under. *)
Definition dispatched_key (e : event) : option string :=
  match e with
  | Dispatch now_local item => Some (dispatch_key (datetime_date now_local) item)
  | _ => None
  end.

(** The (date, entry) pair of a [Dispatch] event. *)
Definition dispatched_pair (e : event) : option (date * ReminderItem) :=
  match e with
  | Dispatch now_local item => Some (datetime_date now_local, item)
  | _ => None
  end.

(** Number of dispatch attempts made under key [k]. *)
Definition attempts_under (k : string) (tr : list event) : nat :=
  length (List.filter (fun e => bool_decide (dispatched_key e = Some k)) tr).

(** Number of dispatch attempts for entry [E] on date [D]. *)
Definition attempts_for (D : date) (E : ReminderItem) (tr : list event) : nat :=
  length (List.filter (fun e => bool_decide (dispatched_pair e = Some (D, E))) tr).

(** The entries dispatched in a trace, in order. *)
Fixpoint dispatched_items (tr : list event) : list ReminderItem :=
  match tr with
  | [] => []
  | Dispatch _ item :: tr' => item :: dispatched_items tr'
  | _ :: tr' => dispatched_items tr'
  end.

(** Number of times the loop went to sleep. *)
Definition is_sleep (e : event) : bool :=
  match e with Sleep _ => true | _ => false end.

Definition sleeps (tr : list event) : nat := length (List.filter is_sleep tr).

(** The date a poll observes. *)
Definition observed_date (p : poll) : date :=
  datetime_date (replace_second_microsecond (clock_now p)).

(** The HH:MM value a poll observes. *)
Definition observed_hm (p : poll) : string :=
  strftime_HM (replace_second_microsecond (clock_now p)).

(** The ledger as far as date [D] is concerned: what the day-boundary
    block leaves of it when the loop next observes [D]. *)
Definition ledger_on (D : date) (s : loop_state) : gset string :=
  if bool_decide (last_seen_date s ≠ Some D) then ∅ else sent_keys s.

(** Whether the loop, observing [p], takes the early [continue]. *)
Definition waiting (config : AppConfig) (p : poll) : bool :=
  date_lt (observed_date p) (start_date config).

(** The Plan Lookup of the specification, [due_entries]: the entries of
    the plan, in plan order, whose time of day equals the argument.  The
    source has no such function; it makes the comparison at the head of
    the loop body (see [for_items]). *)
Definition due_entries (plan : list ReminderItem) (current_hm : string)
  : list ReminderItem :=
  filter (fun item => time_24h item = current_hm) plan.

(** The dates the polls observe never go back: no poll observes a date
    before the date of an earlier poll. *)
Fixpoint clock_never_back (ps : list poll) : Prop :=
  match ps with
  | [] => True
  | p :: rest =>
      Forall (fun q => date_lt (observed_date q) (observed_date p) = false) rest
      ∧ clock_never_back rest
  end.

(** ** Further readings of strings, clocks, states and traces *)

(** Nothing but white space (the empty string included). *)
Definition blank (s : pystr) : bool := forallb isspace s.

(** A clock reading whose hour and minute are in range, as every
    [datetime] has them. *)
Definition valid_clock (t : datetime) : Prop :=
  0 <= dt_hour t < 24 ∧ 0 <= dt_minute t < 60.

(** The text "HH:MM" of an hour and a minute. *)
Definition hhmm (h m : Z) : string := fmt02 h (String ":" (fmt02 m "")).

(** What the loop state looks like in every run from the start: no date
    recorded and nothing in the ledger, or a recorded date that is not
    before the start date and a ledger of keys of plan entries for that
    date. *)
Definition ledger_ok (config : AppConfig) (plan : list ReminderItem)
    (s : loop_state) : Prop :=
  match last_seen_date s with
  | None => sent_keys s = ∅
  | Some D =>
      date_lt D (start_date config) = false
      ∧ sent_keys s ⊆ list_to_set (dispatch_key D <$> plan)
  end.

(** Log lines of a trace that carry the key [k]. *)
Definition logged_attempts (k : string) (tr : list event) : nat :=
  length (List.filter (fun e => bool_decide (e = LogAttempt k)) tr).

Definition logged_successes (k : string) (tr : list event) : nat :=
  length (List.filter (fun e => bool_decide (e = LogSuccess k)) tr).

Definition logged_failures (k : string) (tr : list event) : nat :=
  length (List.filter
            (fun e => match e with
                      | LogFailed k' _ => bool_decide (k' = k)
                      | _ => false
                      end) tr).

(** What [trigger_event] hands to [client.messages.create] for an entry:
    sender, recipient and text. *)
Definition request (config : AppConfig) (c : client) (now_local : datetime)
    (item : ReminderItem) : send_result :=
  c (twilio_whatsapp_number config) (sister_whatsapp_number config)
    (build_whatsapp_message item now_local).

(** The three events of the attempt for [item] at poll [p]: the
    "attempting" line, the call, and the line for its outcome. *)
Definition attempt_events_at (config : AppConfig) (p : poll) (item : ReminderItem)
  : list event :=
  [LogAttempt (dispatch_key (observed_date p) item);
   Dispatch (replace_second_microsecond (clock_now p)) item;
   match request config (poll_client p)
           (replace_second_microsecond (clock_now p)) item with
   | Returned => LogSuccess (dispatch_key (observed_date p) item)
   | Raised exc => LogFailed (dispatch_key (observed_date p) item) exc
   end].

(** A text without a line break. *)
Fixpoint one_line (s : string) : bool :=
  match s with
  | EmptyString => true
  | String ch rest => negb (Ascii.eqb ch (ascii_of_nat 10)) && one_line rest
  end.

(** ** Fixtures for the scenarios *)

Definition example_config (start : date) : AppConfig :=
  mkAppConfig "ACxxxx" "token" "whatsapp:+14155238886" "whatsapp:+911234567890"
    "Asia/Kolkata" start 5 "09:00" 20.

(** The same with start date 2026-02-21 and another poll interval. *)
Definition config_with_interval (seconds : Z) : AppConfig :=
  mkAppConfig "ACxxxx" "token" "whatsapp:+14155238886" "whatsapp:+911234567890"
    "Asia/Kolkata" (mkdate 2026 2 21) 5 "09:00" seconds.

Definition entry_0830 : ReminderItem :=
  mkReminderItem "08:30" "Morning dry fruits and seeds" "Please take soaked almonds.".

Definition client_ok : client := fun _ _ _ => Returned.
Definition client_down : client := fun _ _ _ => Raised "HTTP 503".

(** A poll on 2026-03-[d] at [h]:[m], [sec] seconds into the minute. *)
Definition march (d h m sec : Z) (c : client) : poll :=
  mkpoll (mkdatetime 2026 3 d h m sec 250000) c.

(** Scenario A continued over midnight and through the next day. *)
Definition scenario_A_two_days : list poll :=
  [march 1 8 30 5 client_ok; march 1 8 30 25 client_ok; march 1 23 59 45 client_ok;
   march 2 0 0 5 client_ok; march 2 8 30 5 client_ok; march 2 8 30 25 client_ok].

(** Scenario B: the client is down at 08:30 on 2026-03-01; the slot is
    consumed and later polls that day, the client back up, leave it
    alone. *)
Definition scenario_B_first : outcome loop_state :=
  iteration (example_config (mkdate 2026 2 21)) [entry_0830]
    (march 1 8 30 2 client_down) initial_state.


(** The loop state after one 08:30 poll on 2026-03-[d], the client up,
    with the plan [[entry_0830]] and start date [start]. *)
Definition after_0830_on (start : date) (d : Z) : loop_state :=
  after (run_polls (example_config start) [entry_0830]
           [march d 8 30 7 client_ok] initial_state).

(** Two entries for the same slot that differ in their text only. *)
Definition entry_0830_other_text : ReminderItem :=
  mkReminderItem "08:30" "Morning dry fruits and seeds" "Please also drink water.".

(** Parsers for the examples: they know the default texts only. *)
Definition example_fromisoformat (s : pystr) : result date :=
  if decide (s = lit "2026-02-21") then Ok (mkdate 2026 2 21)
  else ValueError (lit "Invalid isoformat string").

Definition example_int (s : pystr) : result Z :=
  if decide (s = lit "5") then Ok 5
  else if decide (s = lit "20") then Ok 20
  else ValueError (lit "invalid literal for int() with base 10").

(** An environment with the four required variables, written loosely. *)
Definition example_environ : gmap string pystr :=
  <["TWILIO_ACCOUNT_SID" := lit " ACxxxx "]>
    (<["TWILIO_AUTH_TOKEN" := lit "token"]>
       (<["TWILIO_WHATSAPP_NUMBER" := lit "+14155238886"]>
          (<["SISTER_WHATSAPP_NUMBER" := lit "  whatsapp:+911234567890 "]> ∅))).

(** * Properties *)

Lemma attempts_under_app k tr1 tr2 :
  attempts_under k (tr1 ++ tr2) = (attempts_under k tr1 + attempts_under k tr2)%nat.
Proof. unfold attempts_under. by rewrite List.filter_app, length_app. Qed.

Lemma attempts_for_app D E tr1 tr2 :
  attempts_for D E (tr1 ++ tr2) = (attempts_for D E tr1 + attempts_for D E tr2)%nat.
Proof. unfold attempts_for. by rewrite List.filter_app, length_app. Qed.

Lemma sleeps_app tr1 tr2 : sleeps (tr1 ++ tr2) = (sleeps tr1 + sleeps tr2)%nat.
Proof. unfold sleeps. by rewrite List.filter_app, length_app. Qed.

Lemma dispatched_items_app tr1 tr2 :
  dispatched_items (tr1 ++ tr2) = dispatched_items tr1 ++ dispatched_items tr2.
Proof.
  induction tr1 as [|e tr1 IH]; [done|].
  destruct e; simpl; by rewrite ?IH.
Qed.

Lemma attempts_for_le_under D E tr :
  (attempts_for D E tr <= attempts_under (dispatch_key D E) tr)%nat.
Proof.
  unfold attempts_for, attempts_under.
  induction tr as [|e tr IH]; cbn [List.filter length]; [lia|].
  destruct (decide (dispatched_pair e = Some (D, E))) as [Hp|Hp].
  - assert (dispatched_key e = Some (dispatch_key D E)) as Hk.
    { destruct e; try discriminate. injection Hp as <- <-. done. }
    rewrite !bool_decide_eq_true_2 by done. cbn [length]. lia.
  - rewrite (bool_decide_eq_false_2 _ Hp). case_bool_decide; cbn [length]; lia.
Qed.



Lemma date_lt_antisym a b : date_lt a b = false → date_lt b a = false → a = b.
Proof.
  intros H1 H2. destruct a as [y m d], b as [y' m' d']. cbn [year month day] in *.
  unfold date_lt in *. cbn [year month day] in *.
  repeat match goal with
         | H : context [?x <? ?y] |- _ => destruct (Z.ltb_spec x y)
         end; try discriminate.
  f_equal; lia.
Qed.

Lemma date_lt_irrefl d : date_lt d d = false.
Proof. unfold date_lt. by rewrite !Z.ltb_irrefl. Qed.

(** ** Keys *)

Section Keys.

Lemma ledger_add_in (k : string) (sent : gset string) : k ∈ {[ k ]} ∪ sent.
Proof. set_solver. Qed.

Lemma ledger_add_notin (k k' : string) (sent : gset string) :
  k' ≠ k → k ∉ sent → k ∉ {[ k' ]} ∪ sent.
Proof.
  intros Hne Hk Hin. apply elem_of_union in Hin as [Hin|Hin]; [|done].
  apply elem_of_singleton in Hin. congruence.
Qed.

Lemma ledger_add_twice (k : string) (sent : gset string) :
  {[ k ]} ∪ ({[ k ]} ∪ sent) = {[ k ]} ∪ sent.
Proof. apply set_eq. intros x. rewrite !elem_of_union. tauto. Qed.

Lemma append_cancel_l (s a b : string) : s +:+ a = s +:+ b → a = b.
Proof.
  induction s as [|ch s IH]; [done|].
  cbn [String.append]. intros H. injection H as H. by apply IH.
Qed.

Lemma digit_inj a b : digit a = digit b → a mod 10 = b mod 10.
Proof.
  unfold digit. intros H.
  apply (f_equal nat_of_ascii) in H.
  pose proof (Z.mod_pos_bound a 10 eq_refl).
  pose proof (Z.mod_pos_bound b 10 eq_refl).
  rewrite !nat_ascii_embedding in H by lia. lia.
Qed.

Lemma fmt02_inj n m r r' :
  0 <= n < 100 → 0 <= m < 100 → fmt02 n r = fmt02 m r' → n = m ∧ r = r'.
Proof.
  unfold fmt02. intros Hn Hm H. injection H as H1 H2 H3.
  apply digit_inj in H1, H2. split; [|done].
  revert H1 H2. Z.div_mod_to_equations. lia.
Qed.

Lemma fmt04_inj n m r r' :
  0 <= n < 10000 → 0 <= m < 10000 → fmt04 n r = fmt04 m r' → n = m ∧ r = r'.
Proof.
  unfold fmt04, fmt02. intros Hn Hm H. injection H as H1 H2 H3 H4 H5.
  apply digit_inj in H1, H2, H3, H4. split; [|done].
  revert H1 H2 H3 H4. Z.div_mod_to_equations. lia.
Qed.

Lemma String_tail ch (a b : string) : String ch a = String ch b → a = b.
Proof. by intros [= ->]. Qed.

Lemma isoformat_append d rest :
  isoformat d +:+ rest =
    fmt04 (year d) (String "-" (fmt02 (month d) (String "-" (fmt02 (day d) rest)))).
Proof. reflexivity. Qed.

(** The date can be read back from a key. *)
Lemma dispatch_key_date_inj D D' E E' :
  valid_date D → valid_date D' → dispatch_key D E = dispatch_key D' E' → D = D'.
Proof.
  unfold valid_date, dispatch_key. intros HD HD'. rewrite !isoformat_append.
  intros H.
  apply fmt04_inj in H as [Hy H]; [|lia..]. apply String_tail in H.
  apply fmt02_inj in H as [Hm H]; [|lia..]. apply String_tail in H.
  apply fmt02_inj in H as [Hd _]; [|lia..].
  destruct D, D'; simpl in *; congruence.
Qed.

(** On one date and at one time of day, the key is the title. *)
Lemma dispatch_key_same_slot D E1 E2 :
  time_24h E1 = time_24h E2 →
  dispatch_key D E1 = dispatch_key D E2 → title E1 = title E2.
Proof.
  unfold dispatch_key. intros -> H.
  by do 4 apply append_cancel_l in H.
Qed.

Lemma dispatch_key_eq D E1 E2 :
  time_24h E1 = time_24h E2 → title E1 = title E2 →
  dispatch_key D E1 = dispatch_key D E2.
Proof. unfold dispatch_key. by intros -> ->. Qed.

End Keys.

(** ** The inner loop *)

Section ForItems.

Variable config : AppConfig.
Variable c : client.
Variable now_local : datetime.
Variable current_hm : string.

Abbreviation today := (datetime_date now_local).
Abbreviation loop := (for_items config c now_local today current_hm).

(** The handler catches whatever the call raises. *)
Lemma attempt_ending key item sent :
  ending (attempt config c now_local key item sent) = Normal.
Proof.
  unfold attempt, except_Exception, try_body.
  by destruct (trigger_event _ _ _ _).
Qed.

(** The [finally] clause has run, whatever the call did. *)
Lemma attempt_after key item sent :
  after (attempt config c now_local key item sent) = {[ key ]} ∪ sent.
Proof. done. Qed.

Lemma attempt_events key item sent :
  events (attempt config c now_local key item sent) =
    [LogAttempt key; Dispatch now_local item;
     match trigger_event c now_local item config with
     | Returned => LogSuccess key
     | Raised exc => LogFailed key exc
     end].
Proof.
  unfold attempt, except_Exception, try_body.
  by destruct (trigger_event _ _ _ _).
Qed.

Lemma for_items_other_time item rest sent :
  time_24h item ≠ current_hm → loop (item :: rest) sent = loop rest sent.
Proof. intros H. cbn [for_items]. by rewrite bool_decide_eq_true_2. Qed.

Lemma for_items_already_sent item rest sent :
  time_24h item = current_hm → dispatch_key today item ∈ sent →
  loop (item :: rest) sent = loop rest sent.
Proof.
  intros H1 H2. cbn [for_items].
  rewrite bool_decide_eq_false_2 by (by intros ?).
  by rewrite bool_decide_eq_true_2.
Qed.

Lemma for_items_attempt item rest sent :
  time_24h item = current_hm → dispatch_key today item ∉ sent →
  loop (item :: rest) sent =
    let r := loop rest ({[ dispatch_key today item ]} ∪ sent) in
    mkoutcome (ending r) (after r)
      (events (attempt config c now_local (dispatch_key today item) item sent)
         ++ events r).
Proof.
  intros H1 H2. cbn [for_items].
  rewrite bool_decide_eq_false_2 by (by intros ?).
  rewrite bool_decide_eq_false_2 by done.
  cbv zeta. by rewrite attempt_ending, attempt_after.
Qed.

(** The three ways the loop body treats the head of the list. *)
Ltac head_cases item sent :=
  destruct (decide (time_24h item = current_hm)) as [Htime|Htime];
  [ destruct (decide (dispatch_key today item ∈ sent)) as [Hin|Hin];
    [ rewrite (for_items_already_sent _ _ _ Htime Hin)
    | rewrite (for_items_attempt _ _ _ Htime Hin); cbv zeta;
      cbn [ending after events] ]
  | rewrite (for_items_other_time _ _ _ Htime) ].

(** No exception leaves the inner loop. *)
Lemma for_items_ending items sent : ending (loop items sent) = Normal.
Proof.
  revert sent. induction items as [|item rest IH]; intros sent; [done|].
  head_cases item sent; apply IH.
Qed.

Lemma attempts_under_attempt k key item sent :
  attempts_under k (events (attempt config c now_local key item sent))
  = if bool_decide (dispatch_key today item = k) then 1%nat else 0%nat.
Proof.
  rewrite attempt_events.
  unfold attempts_under. cbn [List.filter dispatched_key].
  rewrite (bool_decide_eq_false_2 (None = Some k)) by done.
  destruct (trigger_event _ _ _ _); cbn [dispatched_key];
    rewrite (bool_decide_eq_false_2 (None = Some k)) by done;
    case_bool_decide as Hk; case_bool_decide as Hk'; cbn [length]; congruence.
Qed.

Lemma for_items_grows items sent : sent ⊆ after (loop items sent).
Proof.
  revert sent. induction items as [|item rest IH]; intros sent; [done|].
  head_cases item sent; try apply IH.
  etrans; [|apply IH]. set_solver.
Qed.

Lemma for_items_skips_sent k items sent :
  k ∈ sent → attempts_under k (events (loop items sent)) = 0%nat.
Proof.
  revert sent. induction items as [|item rest IH]; intros sent Hk; [done|].
  head_cases item sent; try by apply IH.
  rewrite attempts_under_app, attempts_under_attempt, IH by set_solver.
  case_bool_decide; [congruence | done].
Qed.

Lemma for_items_at_most_once k items sent :
  (attempts_under k (events (loop items sent)) <= 1)%nat.
Proof.
  revert sent. induction items as [|item rest IH]; intros sent; [cbn; lia|].
  head_cases item sent; try by apply IH.
  rewrite attempts_under_app, attempts_under_attempt.
  case_bool_decide as Hk; [|apply IH].
  rewrite for_items_skips_sent by set_solver. lia.
Qed.

Lemma for_items_records k items sent :
  attempts_under k (events (loop items sent)) ≠ 0%nat →
  k ∈ after (loop items sent).
Proof.
  revert sent. induction items as [|item rest IH]; intros sent; [done|].
  head_cases item sent; try by apply IH.
  rewrite attempts_under_app, attempts_under_attempt.
  case_bool_decide as Hk; [intros _|by apply IH].
  apply for_items_grows. set_solver.
Qed.

Lemma for_items_due_recorded item items sent :
  item ∈ items → time_24h item = current_hm →
  dispatch_key today item ∈ after (loop items sent).
Proof.
  intros Hel Hhm. revert sent.
  induction items as [|item' rest IH]; intros sent; [by apply elem_of_nil in Hel|].
  apply elem_of_cons in Hel as [<-|Hel].
  - destruct (decide (dispatch_key today item ∈ sent)) as [Hin|Hin].
    + rewrite (for_items_already_sent _ _ _ Hhm Hin). by apply for_items_grows.
    + rewrite (for_items_attempt _ _ _ Hhm Hin). cbv zeta. cbn [after].
      apply for_items_grows. set_solver.
  - head_cases item' sent; by apply IH.
Qed.

(** A key in the ledger after the inner loop was there before, or is the
    key of a due entry. *)
Lemma for_items_keys_origin k items sent :
  k ∈ after (loop items sent) →
  k ∈ sent ∨ ∃ item, item ∈ items ∧ time_24h item = current_hm
                     ∧ k = dispatch_key today item.
Proof.
  revert sent. induction items as [|item rest IH]; intros sent; [by left|].
  assert (∀ sent' : gset string, (k ∈ sent' ∨ ∃ it, it ∈ rest ∧ time_24h it = current_hm
                                      ∧ k = dispatch_key today it) →
            k ∈ sent' ∨ ∃ it, it ∈ item :: rest ∧ time_24h it = current_hm
                              ∧ k = dispatch_key today it) as Hlift.
  { intros sent' [?|(it & ? & ? & ?)]; [by left|right].
    exists it. split; [by right|done]. }
  head_cases item sent; intros Hk; try (apply Hlift, IH, Hk).
  apply IH in Hk as [Hk|Hk]; [|apply Hlift; by right].
  apply elem_of_union in Hk as [Hk|Hk]; [|by left].
  apply elem_of_singleton in Hk. right. exists item. split; [by left|done].
Qed.

(** A due entry whose key is not yet in the ledger gets exactly one
    attempt under that key. *)
Lemma for_items_attempts_due E items sent :
  E ∈ items → time_24h E = current_hm → dispatch_key today E ∉ sent →
  attempts_under (dispatch_key today E) (events (loop items sent)) = 1%nat.
Proof.
  intros Hel Hhm. revert sent Hel.
  induction items as [|item rest IH]; intros sent Hel Hk;
    [by apply elem_of_nil in Hel|].
  head_cases item sent.
  - apply IH; [|done]. apply elem_of_cons in Hel as [->|?]; [done|done].
  - rewrite attempts_under_app, attempts_under_attempt.
    case_bool_decide as Hkey.
    + rewrite for_items_skips_sent; [done|]. rewrite Hkey. apply ledger_add_in.
    + apply IH; [|apply ledger_add_notin; [exact Hkey|exact Hk]].
      apply elem_of_cons in Hel as [->|?]; [done|done].
  - apply IH; [|done]. apply elem_of_cons in Hel as [->|?]; [done|done].
Qed.

Lemma attempts_for_attempt D E key item sent :
  attempts_for D E (events (attempt config c now_local key item sent))
  = if bool_decide (today = D ∧ item = E) then 1%nat else 0%nat.
Proof.
  rewrite attempt_events.
  unfold attempts_for. cbn [List.filter dispatched_pair].
  rewrite (bool_decide_eq_false_2 (None = Some (D, E))) by done.
  assert (bool_decide (Some (today, item) = Some (D, E))
          = bool_decide (today = D ∧ item = E)) as ->.
  { apply bool_decide_ext. split; [by intros [= -> ->]|by intros [-> ->]]. }
  destruct (trigger_event _ _ _ _); cbn [dispatched_pair];
    rewrite (bool_decide_eq_false_2 (None = Some (D, E))) by done;
    by case_bool_decide.
Qed.

(** If no other due entry carries its title, that one attempt is for the
    entry itself. *)
Lemma for_items_attempts_for_due E items sent :
  E ∈ items → time_24h E = current_hm → dispatch_key today E ∉ sent →
  (∀ E', E' ∈ items → time_24h E' = current_hm → title E' = title E → E' = E) →
  attempts_for today E (events (loop items sent)) = 1%nat.
Proof.
  intros Hel Hhm. revert sent Hel.
  induction items as [|item rest IH]; intros sent Hel Hk Hown;
    [by apply elem_of_nil in Hel|].
  assert (∀ E', E' ∈ rest → time_24h E' = current_hm → title E' = title E → E' = E)
    as Hown' by (intros E' ?; apply Hown; by right).
  head_cases item sent.
  - apply IH; [|done|done]. apply elem_of_cons in Hel as [->|?]; [done|done].
  - rewrite attempts_for_app, attempts_for_attempt.
    case_bool_decide as Hhead.
    + destruct Hhead as [_ ->].
      pose proof (attempts_for_le_under today E
                    (events (loop rest ({[dispatch_key today E]} ∪ sent)))) as Hle.
      rewrite for_items_skips_sent in Hle by apply ledger_add_in. lia.
    + assert (item ≠ E) as Hne by (intros ->; by apply Hhead).
      assert (dispatch_key today item ≠ dispatch_key today E) as Hkne.
      { intros Heq. apply Hne, Hown; [by left|done|].
        apply (dispatch_key_same_slot today); [congruence|done]. }
      apply IH; [|apply ledger_add_notin; [exact Hkne|exact Hk]|exact Hown'].
      apply elem_of_cons in Hel as [->|?]; [done|done].
  - apply IH; [|done|done]. apply elem_of_cons in Hel as [->|?]; [done|done].
Qed.

Lemma dispatched_items_attempt key item sent :
  dispatched_items (events (attempt config c now_local key item sent)) = [item].
Proof. rewrite attempt_events. by destruct (trigger_event _ _ _ _). Qed.

(** The inner loop over the plan is the inner loop over its due entries. *)
Lemma for_items_due_entries items sent :
  loop items sent = loop (due_entries items current_hm) sent.
Proof.
  unfold due_entries. revert sent.
  induction items as [|item rest IH]; intros sent; [done|].
  destruct (decide (time_24h item = current_hm)) as [Htime|Htime].
  - rewrite filter_cons_True by done.
    destruct (decide (dispatch_key today item ∈ sent)) as [Hin|Hin].
    + rewrite !(for_items_already_sent _ _ _ Htime Hin). apply IH.
    + rewrite !(for_items_attempt _ _ _ Htime Hin). cbv zeta. by rewrite IH.
  - rewrite filter_cons_False by done.
    rewrite (for_items_other_time _ _ _ Htime). apply IH.
Qed.

(** What is dispatched is a run of due entries, in plan order. *)
Lemma for_items_dispatched_sublist items sent :
  sublist (dispatched_items (events (loop items sent)))
    (due_entries items current_hm).
Proof.
  unfold due_entries. revert sent.
  induction items as [|item rest IH]; intros sent; [constructor|].
  head_cases item sent.
  - rewrite filter_cons_True by done. apply sublist_cons, IH.
  - rewrite filter_cons_True by done.
    rewrite dispatched_items_app, dispatched_items_attempt.
    apply sublist_skip, IH.
  - rewrite filter_cons_False by done. apply IH.
Qed.

(** With no due key in the ledger and no title shared between due
    entries, every due entry is dispatched. *)
Lemma for_items_dispatch_all items sent :
  (∀ item, item ∈ items → time_24h item = current_hm →
           dispatch_key today item ∉ sent) →
  NoDup (title <$> due_entries items current_hm) →
  dispatched_items (events (loop items sent)) = due_entries items current_hm.
Proof.
  unfold due_entries. revert sent.
  induction items as [|item rest IH]; intros sent Hfresh Hnodup; [done|].
  destruct (decide (time_24h item = current_hm)) as [Htime|Htime].
  - rewrite filter_cons_True in Hnodup |- * by done.
    rewrite fmap_cons in Hnodup. apply NoDup_cons in Hnodup as [Hhead Hnodup].
    rewrite for_items_attempt; [|done|apply Hfresh; [by left|done]].
    cbv zeta. cbn [events].
    rewrite dispatched_items_app, dispatched_items_attempt. cbn [app]. f_equal.
    apply IH; [|done].
    intros it Hit Hhm. apply ledger_add_notin; [|apply Hfresh; [by right|done]].
    intros Hkey. apply Hhead. apply list_elem_of_fmap. exists it.
    split; [|apply list_elem_of_filter; by split].
    apply (dispatch_key_same_slot today); [congruence|done].
  - rewrite filter_cons_False in Hnodup |- * by done.
    rewrite (for_items_other_time _ _ _ Htime).
    apply IH; [|done]. intros it Hit. apply Hfresh. by right.
Qed.

(** Every dispatch is made with the truncated clock reading. *)
Lemma for_items_dispatch_now t item items sent :
  Dispatch t item ∈ events (loop items sent) → t = now_local.
Proof.
  revert sent. induction items as [|item' rest IH]; intros sent.
  { intros H. by apply elem_of_nil in H. }
  head_cases item' sent; try apply IH.
  rewrite attempt_events. intros H.
  apply elem_of_app in H as [H|H]; [|by apply IH in H].
  destruct (trigger_event _ _ _ _);
    repeat (apply elem_of_cons in H as [H|H]; [congruence|]);
    by apply elem_of_nil in H.
Qed.

(** An entry whose key is in the ledger is not dispatched. *)
Lemma for_items_sent_not_dispatched E items sent :
  dispatch_key today E ∈ sent →
  E ∉ dispatched_items (events (loop items sent)).
Proof.
  revert sent. induction items as [|item rest IH]; intros sent Hk.
  { apply not_elem_of_nil. }
  head_cases item sent.
  - apply IH, Hk.
  - rewrite dispatched_items_app, dispatched_items_attempt. cbn [app].
    apply not_elem_of_cons. split; [by intros ->|].
    apply IH. apply elem_of_union_r, Hk.
  - apply IH, Hk.
Qed.

(** An entry that first occurs after another entry with its time and
    title is not dispatched. *)
Lemma for_items_shadowed l1 E1 l2 E2 sent :
  E2 ∉ l1 → E1 ≠ E2 → time_24h E1 = time_24h E2 → title E1 = title E2 →
  E2 ∉ dispatched_items (events (loop (l1 ++ E1 :: l2) sent)).
Proof.
  intros Hl1 Hne Ht Hti.
  pose proof (dispatch_key_eq today E1 E2 Ht Hti) as Hkey.
  revert sent Hl1. induction l1 as [|h l1 IH]; intros sent Hl1; cbn [app].
  - head_cases E1 sent.
    + apply for_items_sent_not_dispatched. by rewrite <- Hkey.
    + rewrite dispatched_items_app, dispatched_items_attempt. cbn [app].
      apply not_elem_of_cons. split; [by intros ->|].
      apply for_items_sent_not_dispatched. rewrite <- Hkey. apply ledger_add_in.
    + intros Hin.
      pose proof (elem_of_sublist _ _ _ Hin (for_items_dispatched_sublist l2 sent)) as Hd.
      apply list_elem_of_filter in Hd as [Hd _]. congruence.
  - apply not_elem_of_cons in Hl1 as [Hh Hl1].
    head_cases h sent.
    + apply IH, Hl1.
    + rewrite dispatched_items_app, dispatched_items_attempt. cbn [app].
      apply not_elem_of_cons. split; [by intros ->|]. apply IH, Hl1.
    + apply IH, Hl1.
Qed.

(** The inner loop never sleeps. *)
Lemma for_items_no_sleep items sent : sleeps (events (loop items sent)) = 0%nat.
Proof.
  revert sent. induction items as [|item rest IH]; intros sent; [done|].
  head_cases item sent; try apply IH.
  rewrite sleeps_app, IH, attempt_events.
  by destruct (trigger_event _ _ _ _).
Qed.

(** When every due entry already has its key in the ledger, the inner
    loop does nothing. *)
Lemma for_items_all_sent items sent :
  (∀ item, item ∈ items → time_24h item = current_hm →
           dispatch_key today item ∈ sent) →
  loop items sent = mkoutcome Normal sent [].
Proof.
  induction items as [|item rest IH]; intros Hall; [done|].
  destruct (decide (time_24h item = current_hm)) as [Htime|Htime].
  - rewrite for_items_already_sent; [|done|apply Hall; [left|done]].
    apply IH. intros ???. apply Hall; [by right|done].
  - rewrite for_items_other_time by done.
    apply IH. intros ???. apply Hall; [by right|done].
Qed.

End ForItems.

(** ** One iteration *)

Section Iteration.

Variable config : AppConfig.
Variable plan : list ReminderItem.

Abbreviation step := (iteration config plan).
Abbreviation waiting := (waiting config).
Abbreviation interval := (poll_interval_seconds config).
Abbreviation nap := ((pause config).2).


Lemma time_sleep_raises n :
  n < 0 ∨ sleep_max < n → ∃ exc, time_sleep n = Propagates exc.
Proof.
  intros H. unfold time_sleep.
  destruct ((n <? - sleep_max) || (sleep_max <? n)) eqn:Hov; [by eexists|].
  apply orb_false_iff in Hov as [_ Hov]. apply Z.ltb_ge in Hov.
  destruct H as [H|H]; [|lia].
  rewrite (proj2 (Z.ltb_lt n 0)) by done. by eexists.
Qed.

Lemma pause_ending : (pause config).1 = time_sleep interval.
Proof. unfold pause. cbv zeta. by destruct (time_sleep _). Qed.

Lemma pause_events :
  nap = match time_sleep interval with
        | Normal => [Sleep interval]
        | Propagates _ => []
        end.
Proof. unfold pause. cbv zeta. by destruct (time_sleep _). Qed.

Lemma nap_event e : e ∈ nap → e = Sleep interval.
Proof.
  rewrite pause_events. destruct (time_sleep _); intros H.
  - by apply list_elem_of_singleton in H.
  - by apply elem_of_nil in H.
Qed.

Lemma iteration_waiting p s :
  waiting p = true → step p s = mkoutcome (time_sleep interval) s nap.
Proof.
  unfold waiting, observed_date, iteration. intros ->. by rewrite pause_ending.
Qed.

Lemma iteration_active p s :
  waiting p = false →
  step p s =
    let now_local := replace_second_microsecond (clock_now p) in
    let s1 := day_boundary (observed_date p) s in
    let r := for_items config (poll_client p) now_local (observed_date p)
               (observed_hm p) plan (sent_keys s1) in
    mkoutcome (time_sleep interval) (mkstate (after r) (last_seen_date s1))
      (events r ++ nap).
Proof.
  unfold waiting, observed_date, observed_hm, iteration. intros ->.
  cbv zeta. by rewrite for_items_ending, pause_ending.
Qed.

(** An iteration ends as its [time.sleep] does: no exception of the
    client leaves it. *)
Lemma iteration_ending p s : ending (step p s) = time_sleep interval.
Proof.
  destruct (waiting p) eqn:H.
  - by rewrite (iteration_waiting _ _ H).
  - by rewrite (iteration_active _ _ H).
Qed.

Lemma day_boundary_date D s : last_seen_date (day_boundary D s) = Some D.
Proof.
  unfold day_boundary. case_bool_decide as H; [done|].
  destruct (decide (last_seen_date s = Some D)); [done|]. by destruct H.
Qed.

Lemma day_boundary_keys D s : sent_keys (day_boundary D s) = ledger_on D s.
Proof. unfold day_boundary, ledger_on. by case_bool_decide. Qed.

Lemma ledger_on_seen D s :
  last_seen_date s = Some D → ledger_on D s = sent_keys s.
Proof. intros H. unfold ledger_on. by rewrite bool_decide_eq_false_2 by (by intros ?). Qed.

Lemma nap_no_attempt k : attempts_under k nap = 0%nat.
Proof.
  rewrite pause_events. destruct (time_sleep _); [|done].
  unfold attempts_under. cbn [List.filter dispatched_key].
  by rewrite bool_decide_eq_false_2.
Qed.

Lemma nap_no_attempt_for D E : attempts_for D E nap = 0%nat.
Proof.
  rewrite pause_events. destruct (time_sleep _); [|done].
  unfold attempts_for. cbn [List.filter dispatched_pair].
  by rewrite bool_decide_eq_false_2.
Qed.

Lemma nap_no_dispatch : dispatched_items nap = [].
Proof. rewrite pause_events. by destruct (time_sleep _). Qed.

Lemma nap_no_line k :
  logged_attempts k nap = 0%nat
  ∧ logged_successes k nap = 0%nat
  ∧ logged_failures k nap = 0%nat.
Proof. rewrite pause_events. by destruct (time_sleep _). Qed.

Lemma iteration_date p s :
  waiting p = false → last_seen_date (after (step p s)) = Some (observed_date p).
Proof. intros H. rewrite (iteration_active _ _ H). apply day_boundary_date. Qed.

Lemma iteration_ledger_grows p s :
  ledger_on (observed_date p) s ⊆ ledger_on (observed_date p) (after (step p s)).
Proof.
  destruct (waiting p) eqn:H.
  - by rewrite (iteration_waiting _ _ H).
  - rewrite (ledger_on_seen _ (after (step p s))) by by apply iteration_date.
    rewrite (iteration_active _ _ H). cbv zeta. cbn [after sent_keys].
    rewrite day_boundary_keys. apply for_items_grows.
Qed.

Lemma iteration_skips_sent k p s :
  k ∈ ledger_on (observed_date p) s → attempts_under k (events (step p s)) = 0%nat.
Proof.
  intros Hk. destruct (waiting p) eqn:H.
  - rewrite (iteration_waiting _ _ H). apply nap_no_attempt.
  - rewrite (iteration_active _ _ H). cbv zeta. cbn [events].
    rewrite attempts_under_app, nap_no_attempt, day_boundary_keys.
    unfold observed_date. by rewrite for_items_skips_sent.
Qed.

Lemma iteration_at_most_once k p s :
  (attempts_under k (events (step p s)) <= 1)%nat.
Proof.
  destruct (waiting p) eqn:H.
  - rewrite (iteration_waiting _ _ H). cbn [events]. rewrite nap_no_attempt. lia.
  - rewrite (iteration_active _ _ H). cbv zeta. cbn [events].
    rewrite attempts_under_app, nap_no_attempt, Nat.add_0_r.
    apply for_items_at_most_once.
Qed.

Lemma iteration_records k p s :
  attempts_under k (events (step p s)) ≠ 0%nat →
  k ∈ ledger_on (observed_date p) (after (step p s)).
Proof.
  destruct (waiting p) eqn:H.
  - rewrite (iteration_waiting _ _ H). cbn [events]. by rewrite nap_no_attempt.
  - rewrite (ledger_on_seen _ (after (step p s))) by by apply iteration_date.
    rewrite (iteration_active _ _ H). cbv zeta. cbn [after events sent_keys].
    rewrite attempts_under_app, nap_no_attempt, Nat.add_0_r.
    apply for_items_records.
Qed.

(** After an active iteration every entry due at the observed minute
    has its key in the ledger. *)
Lemma iteration_due_recorded item p s :
  waiting p = false → item ∈ plan → time_24h item = observed_hm p →
  dispatch_key (observed_date p) item ∈ sent_keys (after (step p s)).
Proof.
  intros H Hel Hhm. rewrite (iteration_active _ _ H). cbv zeta.
  cbn [after sent_keys]. by apply for_items_due_recorded.
Qed.



(** An iteration whose [time.sleep] raises has not paused. *)
Lemma iteration_no_sleep exc p s :
  time_sleep interval = Propagates exc → sleeps (events (step p s)) = 0%nat.
Proof.
  intros Hz. destruct (waiting p) eqn:H.
  - rewrite (iteration_waiting _ _ H). cbn [events].
    by rewrite pause_events, Hz.
  - rewrite (iteration_active _ _ H). cbv zeta. cbn [events].
    unfold observed_date.
    by rewrite sleeps_app, for_items_no_sleep, pause_events, Hz.
Qed.


(** ** Several iterations on one date *)

Abbreviation on_date D := (Forall (fun p => observed_date p = D)).

(** The loop after its first iteration: the polls that follow get their
    turn when the [time.sleep] of the iteration returned, and none of
    them does when it raised. *)
Lemma run_polls_cons p ps s :
  ∃ ps', (ps' = ps ∨ ps' = [])
    ∧ after (run_polls config plan (p :: ps) s)
      = after (run_polls config plan ps' (after (step p s)))
    ∧ events (run_polls config plan (p :: ps) s)
      = events (step p s) ++ events (run_polls config plan ps' (after (step p s))).
Proof.
  cbn [run_polls]. destruct (ending (step p s)).
  - exists ps. cbv zeta. cbn [after events]. auto.
  - exists []. cbn [run_polls after events]. rewrite app_nil_r. auto.
Qed.


Lemma run_polls_cons_raises exc p ps s :
  time_sleep interval = Propagates exc →
  run_polls config plan (p :: ps) s = step p s.
Proof. intros Hz. cbn [run_polls]. by rewrite iteration_ending, Hz. Qed.



Lemma run_same_date D k ps s :
  on_date D ps →
  ledger_on D s ⊆ ledger_on D (after (run_polls config plan ps s))
  ∧ (k ∈ ledger_on D s →
     attempts_under k (events (run_polls config plan ps s)) = 0%nat)
  ∧ (attempts_under k (events (run_polls config plan ps s)) <= 1)%nat
  ∧ (attempts_under k (events (run_polls config plan ps s)) ≠ 0%nat →
     k ∈ ledger_on D (after (run_polls config plan ps s))).
Proof.
  intros Hps. revert s.
  induction Hps as [|p ps Hp Hps IH]; intros s.
  { cbn. split_and!; [done|done|lia|done]. }
  destruct (run_polls_cons p ps s) as (ps' & Hps' & -> & ->).
  rewrite attempts_under_app.
  assert (∀ s',
    ledger_on D s' ⊆ ledger_on D (after (run_polls config plan ps' s'))
    ∧ (k ∈ ledger_on D s' →
       attempts_under k (events (run_polls config plan ps' s')) = 0%nat)
    ∧ (attempts_under k (events (run_polls config plan ps' s')) <= 1)%nat
    ∧ (attempts_under k (events (run_polls config plan ps' s')) ≠ 0%nat →
       k ∈ ledger_on D (after (run_polls config plan ps' s')))) as IH'.
  { destruct Hps' as [-> | ->]; [exact IH|].
    intros s'. cbn. split_and!; [done|done|lia|done]. }
  destruct (IH' (after (step p s))) as (IH1 & IH2 & IH3 & IH4). subst D.
  pose proof (iteration_ledger_grows p s) as G.
  pose proof (iteration_skips_sent k p s) as S0.
  pose proof (iteration_at_most_once k p s) as S1.
  pose proof (iteration_records k p s) as R.
  split_and!.
  - etrans; [apply G | apply IH1].
  - intros Hk. rewrite S0 by done. rewrite IH2; [done|by apply G].
  - destruct (decide (attempts_under k (events (step p s)) = 0%nat)) as [->|Hne]; [lia|].
    rewrite IH2 by auto. lia.
  - destruct (decide (attempts_under k (events (step p s)) = 0%nat)) as [->|Hne].
    + intros ?. apply IH4. lia.
    + intros _. apply IH1. auto.
Qed.

End Iteration.

(** ** A whole run, the dates never going back *)

Section WholeRun.

Variable config : AppConfig.
Variable plan : list ReminderItem.

Lemma attempts_for_other_date D E tr :
  (∀ t item, Dispatch t item ∈ tr → datetime_date t ≠ D) →
  attempts_for D E tr = 0%nat.
Proof.
  unfold attempts_for. induction tr as [|e tr IH]; intros Hall; [done|].
  cbn [List.filter]. rewrite bool_decide_eq_false_2.
  - apply IH. intros t item Hin. apply (Hall t item). by right.
  - destruct e as [k|t item|k|k x|n]; try done.
    cbn [dispatched_pair]. intros [= Hd _]. by apply (Hall t item); [left|].
Qed.

Lemma iteration_dispatch_now p s t item :
  Dispatch t item ∈ events (iteration config plan p s) →
  t = replace_second_microsecond (clock_now p).
Proof.
  intros Hin. destruct (waiting config p) eqn:Hw.
  - rewrite (iteration_waiting _ _ _ _ Hw) in Hin. cbn [events] in Hin.
    apply nap_event in Hin. discriminate.
  - rewrite (iteration_active _ _ _ _ Hw) in Hin. cbv zeta in Hin.
    cbn [events] in Hin. apply elem_of_app in Hin as [Hin|Hin].
    + unfold observed_date in Hin. by apply for_items_dispatch_now in Hin.
    + apply nap_event in Hin. discriminate.
Qed.

Lemma iteration_other_date D E p s :
  observed_date p ≠ D →
  attempts_for D E (events (iteration config plan p s)) = 0%nat.
Proof.
  intros Hne. apply attempts_for_other_date. intros t item Hin.
  by rewrite (iteration_dispatch_now _ _ _ _ Hin).
Qed.

Lemma run_other_dates D E ps s :
  Forall (fun q => observed_date q ≠ D) ps →
  attempts_for D E (events (run_polls config plan ps s)) = 0%nat.
Proof.
  intros Hps. revert s. induction Hps as [|p ps Hp Hps IH]; intros s; [done|].
  destruct (run_polls_cons config plan p ps s) as (ps' & Hps' & _ & ->).
  rewrite attempts_for_app, iteration_other_date by done.
  destruct Hps' as [-> | ->]; [apply IH|done].
Qed.

(** From the first poll on [D] onwards. *)
Lemma run_from_date D E ps s :
  clock_never_back ps →
  Forall (fun q => date_lt (observed_date q) D = false) ps →
  (dispatch_key D E ∈ ledger_on D s →
   attempts_for D E (events (run_polls config plan ps s)) = 0%nat)
  ∧ (attempts_for D E (events (run_polls config plan ps s)) <= 1)%nat.
Proof.
  revert s. induction ps as [|p ps IH]; intros s Hback Hge.
  { cbn. split; [done|lia]. }
  destruct Hback as [Hlater Hback].
  apply Forall_cons in Hge as [Hp Hge].
  destruct (run_polls_cons config plan p ps s) as (ps' & Hps' & _ & ->).
  rewrite attempts_for_app.
  assert (∀ s',
    (dispatch_key D E ∈ ledger_on D s' →
     attempts_for D E (events (run_polls config plan ps' s')) = 0%nat)
    ∧ (attempts_for D E (events (run_polls config plan ps' s')) <= 1)%nat) as IH'.
  { destruct Hps' as [-> | ->]; [intros s'; by apply IH|].
    intros s'. cbn. split; [done|lia]. }
  assert (Forall (fun q => date_lt (observed_date q) (observed_date p) = false) ps')
    as Hlater' by (by destruct Hps' as [-> | ->]).
  destruct (decide (observed_date p = D)) as [<-|Hne].
  - destruct (IH' (after (iteration config plan p s))) as [IH0 IH1].
    pose proof (attempts_for_le_under (observed_date p) E
                  (events (iteration config plan p s))) as Hle.
    pose proof (iteration_ledger_grows config plan p s) as G.
    pose proof (iteration_skips_sent config plan (dispatch_key (observed_date p) E) p s) as S0.
    pose proof (iteration_at_most_once config plan (dispatch_key (observed_date p) E) p s) as S1.
    pose proof (iteration_records config plan (dispatch_key (observed_date p) E) p s) as R.
    split.
    + intros Hk. rewrite S0 in Hle by done. rewrite IH0 by (by apply G). lia.
    + destruct (decide (attempts_under (dispatch_key (observed_date p) E)
                          (events (iteration config plan p s)) = 0%nat)) as [Hz|Hnz].
      * lia.
      * rewrite IH0 by (by apply R). lia.
  - rewrite iteration_other_date by done.
    rewrite run_other_dates; [split; [done|lia]|].
    eapply Forall_impl; [exact Hlater'|]. cbv beta. intros q Hq Heq. subst D.
    apply Hne. by apply date_lt_antisym.
Qed.

Lemma run_never_back D E ps s :
  clock_never_back ps →
  (attempts_for D E (events (run_polls config plan ps s)) <= 1)%nat.
Proof.
  revert s. induction ps as [|p ps IH]; intros s Hback; [cbn; lia|].
  destruct (decide (observed_date p = D)) as [<-|Hne].
  - apply run_from_date; [done|]. destruct Hback as [Hlater _].
    apply Forall_cons. split; [apply date_lt_irrefl|done].
  - destruct Hback as [_ Hback].
    destruct (run_polls_cons config plan p ps s) as (ps' & Hps' & _ & ->).
    rewrite attempts_for_app, iteration_other_date by done.
    destruct Hps' as [-> | ->]; [by apply IH|cbn; lia].
Qed.

End WholeRun.

(** ** At most one attempt per entry per day *)

(** C1: over any number of iterations that all observe the date [D],
    started in any loop state, at most one dispatch attempt is made for
    entry [E] on [D]; the same holds over a whole run through several
    dates, as long as no poll observes a date before that of an earlier
    poll; and an iteration that observes the same date and the same
    minute as the iteration before it dispatches nothing at all. *)
Theorem C1_one_attempt_per_entry_per_date config plan :
  (∀ D E ps s,
     Forall (fun p => observed_date p = D) ps →
     (attempts_for D E (events (run_polls config plan ps s)) <= 1)%nat)
  ∧ (∀ D E ps s,
       clock_never_back ps →
       (attempts_for D E (events (run_polls config plan ps s)) <= 1)%nat)
  ∧ (∀ p1 p2 s,
       observed_date p2 = observed_date p1 →
       observed_hm p2 = observed_hm p1 →
       dispatched_items
         (events (iteration config plan p2 (after (iteration config plan p1 s)))) = []).
Proof.
  split_and!.
  - intros D E ps s Hps.
    etrans; [apply attempts_for_le_under|].
    by apply (run_same_date config plan D (dispatch_key D E) ps s).
  - intros D E ps s Hback. by apply run_never_back.
  - intros p1 p2 s Hd Hhm.
    assert (waiting config p2 = waiting config p1) as Hw
      by (unfold waiting; by rewrite Hd).
    destruct (waiting config p1) eqn:H1.
    + rewrite (iteration_waiting _ _ p2 _ Hw). apply nap_no_dispatch.
    + rewrite (iteration_active _ _ p2 _ Hw). cbv zeta. cbn [events].
      rewrite dispatched_items_app, nap_no_dispatch, app_nil_r.
      rewrite day_boundary_keys, ledger_on_seen
        by (rewrite Hd; by apply iteration_date).
      unfold observed_date at 1.
      rewrite for_items_all_sent; [done|].
      intros item Hel Ht. fold (observed_date p2). rewrite Hd.
      apply iteration_due_recorded; [done|done|congruence].
Qed.

(** Scenario A: one entry at 08:30, two polls at 08:30 on 2026-03-01. *)
Lemma C1_scenario_A :
  Forall (fun p => observed_date p = mkdate 2026 3 1)
    [march 1 8 30 5 client_ok; march 1 8 30 25 client_ok]
  ∧ (attempts_for (mkdate 2026 3 1) entry_0830
       (events (run_polls (example_config (mkdate 2026 2 21)) [entry_0830]
          [march 1 8 30 5 client_ok; march 1 8 30 25 client_ok] initial_state))
     <= 1)%nat
  ∧ dispatched_items
      (events (iteration (example_config (mkdate 2026 2 21)) [entry_0830]
         (march 1 8 30 25 client_ok)
         (after (iteration (example_config (mkdate 2026 2 21)) [entry_0830]
            (march 1 8 30 5 client_ok) initial_state)))) = []
  ∧ clock_never_back scenario_A_two_days
  ∧ (attempts_for (mkdate 2026 3 1) entry_0830
       (events (run_polls (example_config (mkdate 2026 2 21)) [entry_0830]
                  scenario_A_two_days initial_state))
     <= 1)%nat.
Proof.
  assert (Forall (fun p => observed_date p = mkdate 2026 3 1)
            [march 1 8 30 5 client_ok; march 1 8 30 25 client_ok]) as H
    by (repeat constructor).
  assert (clock_never_back scenario_A_two_days) as Hback
    by (cbn; repeat split; repeat constructor).
  split_and!; [exact H | | | exact Hback |].
  - exact (proj1 (C1_one_attempt_per_entry_per_date _ _) _ _ _ _ H).
  - apply (proj2 (proj2 (C1_one_attempt_per_entry_per_date _ _))); reflexivity.
  - exact (proj1 (proj2 (C1_one_attempt_per_entry_per_date _ _)) _ _ _ _ Hback).
Defined.

Example scenario_A_trace :
  events (run_polls (example_config (mkdate 2026 2 21)) [entry_0830]
            [march 1 8 30 5 client_ok; march 1 8 30 25 client_ok] initial_state)
  = [LogAttempt "2026-03-01-08:30-Morning dry fruits and seeds";
     Dispatch (mkdatetime 2026 3 1 8 30 0 0) entry_0830;
     LogSuccess "2026-03-01-08:30-Morning dry fruits and seeds";
     Sleep 20; Sleep 20].
Proof. reflexivity. Qed.

(** Two days of polls on the program's own plan: each of the two
    entries met is attempted once per date. *)
Example two_days_on_daily_plan :
  dispatched_items
    (events (run (example_config (mkdate 2026 2 21))
               [march 1 8 30 5 client_ok; march 1 8 30 25 client_ok;
                march 1 9 30 5 client_down; march 1 9 30 45 client_ok;
                march 2 8 30 5 client_ok]))
  = [mkReminderItem "08:30" "Morning dry fruits and seeds"
       "It is 8:30 AM. Please take soaked almonds, walnuts, cranberry, seeds, and figs.";
     mkReminderItem "09:30" "Breakfast" "It is 9:30 AM. Please have breakfast now.";
     mkReminderItem "08:30" "Morning dry fruits and seeds"
       "It is 8:30 AM. Please take soaked almonds, walnuts, cranberry, seeds, and figs."].
Proof. reflexivity. Qed.

(** ** Forward only: a failed attempt consumes its slot *)



Example scenario_B_trace :
  events scenario_B_first =
    [LogAttempt "2026-03-01-08:30-Morning dry fruits and seeds";
     Dispatch (mkdatetime 2026 3 1 8 30 0 0) entry_0830;
     LogFailed "2026-03-01-08:30-Morning dry fruits and seeds" "HTTP 503";
     Sleep 20].
Proof. reflexivity. Qed.

(** ** Day rollover *)

(** C3, as stated, fails before the start date: with start date
    2026-03-05, an iteration that observes 2026-03-04 sees a date other
    than the recorded 2026-03-05, yet keeps the ledger and the recorded
    date; and started on 2026-03-04 the loop records no date at all. *)
Lemma C3_no_rollover_before_start :
  last_seen_date (after_0830_on (mkdate 2026 3 5) 5) = Some (mkdate 2026 3 5)
  ∧ elements (sent_keys (after_0830_on (mkdate 2026 3 5) 5))
    = ["2026-03-05-08:30-Morning dry fruits and seeds"]
  ∧ observed_date (march 4 8 30 7 client_ok) = mkdate 2026 3 4
  ∧ iteration (example_config (mkdate 2026 3 5)) [entry_0830]
      (march 4 8 30 7 client_ok) (after_0830_on (mkdate 2026 3 5) 5)
    = mkoutcome Normal (after_0830_on (mkdate 2026 3 5) 5) [Sleep 20]
  ∧ last_seen_date initial_state = None
  ∧ iteration (example_config (mkdate 2026 3 5)) [entry_0830]
      (march 4 8 30 7 client_ok) initial_state
    = mkoutcome Normal initial_state [Sleep 20].
Proof. by vm_compute. Qed.

(** C3 (amended): when an iteration whose observed date is not before
    the start date observes a date other than the recorded one, it runs
    as from an empty ledger with the new date recorded: every key in the
    ledger afterwards is the key of an entry due at this minute on the
    new date, no key of another date is in it, and every entry due at
    this minute gets exactly one attempt under its key (for the entry
    itself when no other due entry carries its title), whatever was
    dispatched before. *)
Theorem C3_day_rollover config plan p s :
  waiting config p = false →
  last_seen_date s ≠ Some (observed_date p) →
  iteration config plan p s
    = iteration config plan p (mkstate ∅ (Some (observed_date p)))
  ∧ last_seen_date (after (iteration config plan p s)) = Some (observed_date p)
  ∧ (∀ k, k ∈ sent_keys (after (iteration config plan p s)) →
          ∃ item, item ∈ plan ∧ time_24h item = observed_hm p
                  ∧ k = dispatch_key (observed_date p) item)
  ∧ (∀ D E, valid_date D → valid_date (observed_date p) → D ≠ observed_date p →
            dispatch_key D E ∉ sent_keys (after (iteration config plan p s)))
  ∧ (∀ E, E ∈ plan → time_24h E = observed_hm p →
          attempts_under (dispatch_key (observed_date p) E)
            (events (iteration config plan p s)) = 1%nat
          ∧ ((∀ E', E' ∈ plan → time_24h E' = observed_hm p →
                    title E' = title E → E' = E) →
             attempts_for (observed_date p) E
               (events (iteration config plan p s)) = 1%nat)).
Proof.
  intros Hw Hnew.
  assert (day_boundary (observed_date p) s = mkstate ∅ (Some (observed_date p)))
    as Hclear by (unfold day_boundary; by rewrite bool_decide_eq_true_2).
  assert (∀ k, k ∈ sent_keys (after (iteration config plan p s)) →
               ∃ item, item ∈ plan ∧ time_24h item = observed_hm p
                       ∧ k = dispatch_key (observed_date p) item) as Horigin.
  { intros k. rewrite (iteration_active _ _ _ _ Hw). cbv zeta.
    cbn [after sent_keys]. rewrite Hclear. cbn [sent_keys]. intros Hk.
    apply for_items_keys_origin in Hk as [Hk|Hk]; [|exact Hk].
    by apply not_elem_of_empty in Hk. }
  split_and!.
  - rewrite !(iteration_active _ _ _ _ Hw). cbv zeta. rewrite Hclear.
    unfold day_boundary. cbn [last_seen_date].
    by rewrite bool_decide_eq_false_2 by (by intros ?).
  - by apply iteration_date.
  - exact Horigin.
  - intros D E HD Hp Hne Hin.
    apply Horigin in Hin as (item & _ & _ & Hk).
    by apply dispatch_key_date_inj in Hk.
  - intros E Hel Hhm.
    rewrite (iteration_active _ _ _ _ Hw). cbv zeta. cbn [events].
    rewrite Hclear. cbn [sent_keys].
    rewrite attempts_under_app, attempts_for_app, nap_no_attempt, nap_no_attempt_for.
    unfold observed_date. split.
    + rewrite for_items_attempts_due; [done|done|done|apply not_elem_of_empty].
    + intros Hown.
      rewrite for_items_attempts_for_due; [done|done|done|apply not_elem_of_empty|done].
Qed.

(** Scenario C: the 08:30 entry, dispatched on 2026-03-01, is dispatched
    once more at 08:30 on 2026-03-02. *)
Lemma C3_scenario_C :
  waiting (example_config (mkdate 2026 2 21)) (march 2 8 30 11 client_ok) = false
  ∧ last_seen_date (after_0830_on (mkdate 2026 2 21) 1) = Some (mkdate 2026 3 1)
  ∧ attempts_for (mkdate 2026 3 2) entry_0830
      (events (iteration (example_config (mkdate 2026 2 21)) [entry_0830]
                 (march 2 8 30 11 client_ok)
                 (after_0830_on (mkdate 2026 2 21) 1))) = 1%nat
  ∧ dispatch_key (mkdate 2026 3 1) entry_0830
      ∉ sent_keys (after (iteration (example_config (mkdate 2026 2 21)) [entry_0830]
                            (march 2 8 30 11 client_ok)
                            (after_0830_on (mkdate 2026 2 21) 1))).
Proof.
  assert (last_seen_date (after_0830_on (mkdate 2026 2 21) 1)
          ≠ Some (observed_date (march 2 8 30 11 client_ok))) as Hnew
    by (vm_compute; discriminate).
  destruct (C3_day_rollover (example_config (mkdate 2026 2 21)) [entry_0830]
              (march 2 8 30 11 client_ok) (after_0830_on (mkdate 2026 2 21) 1)
              eq_refl Hnew) as (_ & _ & _ & Hgone & Hdue).
  split_and!; [reflexivity | reflexivity | | ].
  - apply (Hdue entry_0830); [by left | reflexivity |].
    intros E' HE' _ _. by apply list_elem_of_singleton in HE'.
  - apply Hgone; [unfold valid_date; cbn; lia
                 | unfold valid_date; cbn; lia
                 | vm_compute; discriminate].
Defined.

(** ** Exact time-of-day matching *)

(** C4: the entries an iteration works on are exactly the plan entries
    whose [time_24h] equals the current HH:MM string, in plan order: the
    inner loop over the plan is the inner loop over [due_entries], an
    entry is in [due_entries] exactly when it is in the plan with that
    very string, what any iteration dispatches is a sublist of
    [due_entries] (so an entry with any other time is never dispatched),
    and on a fresh ledger with no title shared between due entries it is
    all of [due_entries]. *)
Theorem C4_exact_time_match config plan :
  (∀ hm item, item ∈ due_entries plan hm ↔ item ∈ plan ∧ time_24h item = hm)
  ∧ (∀ c now_local hm sent,
       for_items config c now_local (datetime_date now_local) hm plan sent
       = for_items config c now_local (datetime_date now_local) hm
           (due_entries plan hm) sent)
  ∧ (∀ p s,
       sublist (dispatched_items (events (iteration config plan p s)))
         (due_entries plan (observed_hm p)))
  ∧ (∀ p s item,
       item ∈ dispatched_items (events (iteration config plan p s)) →
       item ∈ plan ∧ time_24h item = observed_hm p)
  ∧ (∀ p s,
       waiting config p = false →
       last_seen_date s ≠ Some (observed_date p) →
       NoDup (title <$> due_entries plan (observed_hm p)) →
       dispatched_items (events (iteration config plan p s))
       = due_entries plan (observed_hm p)).
Proof.
  assert (∀ hm item, item ∈ due_entries plan hm ↔ item ∈ plan ∧ time_24h item = hm)
    as Hdue.
  { intros hm item. unfold due_entries. rewrite list_elem_of_filter. tauto. }
  assert (∀ p s,
            sublist (dispatched_items (events (iteration config plan p s)))
              (due_entries plan (observed_hm p))) as Hsub.
  { intros p s. destruct (waiting config p) eqn:Hw.
    - rewrite (iteration_waiting _ _ _ _ Hw). cbn [events].
      rewrite nap_no_dispatch. apply sublist_nil_l.
    - rewrite (iteration_active _ _ _ _ Hw). cbv zeta. cbn [events].
      rewrite dispatched_items_app, nap_no_dispatch, app_nil_r.
      apply for_items_dispatched_sublist. }
  split_and!.
  - exact Hdue.
  - intros. apply for_items_due_entries.
  - exact Hsub.
  - intros p s item Hin. apply Hdue.
    eapply elem_of_sublist; [exact Hin|apply Hsub].
  - intros p s Hw Hnew Hnodup.
    rewrite (iteration_active _ _ _ _ Hw). cbv zeta. cbn [events].
    rewrite dispatched_items_app, nap_no_dispatch, app_nil_r.
    unfold day_boundary. rewrite bool_decide_eq_true_2 by done. cbn [sent_keys].
    apply for_items_dispatch_all; [|done].
    intros ???. apply not_elem_of_empty.
Qed.

(** On the program's plan at 20:15 the one 20:15 entry is dispatched;
    the 20:30 entry is not due, and nothing is due at 20:16. *)
Lemma C4_daily_plan_2015 :
  due_entries DAILY_PLAN "20:15"
  = [mkReminderItem "20:15" "Magnesium before dinner"
       "It is before dinner time. Please take magnesium medicine now."]
  ∧ due_entries DAILY_PLAN "20:16" = []
  ∧ due_entries DAILY_PLAN "8:30" = []
  ∧ dispatched_items
      (events (iteration (example_config (mkdate 2026 2 21)) DAILY_PLAN
                 (march 1 20 15 30 client_ok) initial_state))
    = due_entries DAILY_PLAN (observed_hm (march 1 20 15 30 client_ok)).
Proof.
  split_and!; [reflexivity | reflexivity | reflexivity |].
  apply (proj2 (proj2 (proj2 (proj2
           (C4_exact_time_match (example_config (mkdate 2026 2 21)) DAILY_PLAN))))).
  - reflexivity.
  - discriminate.
  - vm_compute. apply NoDup_singleton.
Defined.

(** ** The start date *)






(** ** The ledger *)

(** C7: recording a key that is already recorded leaves the ledger as
    it is; and once a key is in the ledger for date [D], it stays there
    through any number of iterations that observe [D]: the recorded date
    stays [D], the loop's test [key in sent_keys] keeps answering yes,
    and no further attempt is made under the key. *)
Theorem C7_record_idempotent config plan :
  (∀ c c' now_local now_local' key item item' sent,
     after (attempt config c' now_local' key item'
              (after (attempt config c now_local key item sent)))
     = after (attempt config c now_local key item sent))
  ∧ (∀ D k s ps,
       last_seen_date s = Some D → k ∈ sent_keys s →
       Forall (fun p => observed_date p = D) ps →
       last_seen_date (after (run_polls config plan ps s)) = Some D
       ∧ bool_decide (k ∈ sent_keys (after (run_polls config plan ps s))) = true
       ∧ attempts_under k (events (run_polls config plan ps s)) = 0%nat).
Proof.
  split.
  - intros. rewrite !attempt_after. apply ledger_add_twice.
  - intros D k s ps Hd Hk Hps.
    destruct (run_same_date config plan D k ps s Hps) as (Hsub & Hzero & _ & _).
    assert (k ∈ ledger_on D s) as Hin by (by rewrite ledger_on_seen).
    apply Hsub in Hin as Hin'. unfold ledger_on in Hin'.
    case_bool_decide as Hdate; [by apply not_elem_of_empty in Hin'|].
    split_and!.
    + destruct (decide (last_seen_date (after (run_polls config plan ps s)) = Some D));
        [done|by destruct Hdate].
    + by apply bool_decide_eq_true_2.
    + by apply Hzero.
Qed.

Lemma C7_recorded_stays :
  last_seen_date (after_0830_on (mkdate 2026 2 21) 1) = Some (mkdate 2026 3 1)
  ∧ dispatch_key (mkdate 2026 3 1) entry_0830
      ∈ sent_keys (after_0830_on (mkdate 2026 2 21) 1)
  ∧ bool_decide
      (dispatch_key (mkdate 2026 3 1) entry_0830
         ∈ sent_keys
             (after (run_polls (example_config (mkdate 2026 2 21)) [entry_0830]
                       [march 1 8 30 27 client_ok; march 1 8 30 47 client_down;
                        march 1 8 31 7 client_ok]
                       (after_0830_on (mkdate 2026 2 21) 1)))) = true.
Proof.
  assert (dispatch_key (mkdate 2026 3 1) entry_0830
            ∈ sent_keys (after_0830_on (mkdate 2026 2 21) 1)) as Hk.
  { apply (elem_of_elements (sent_keys (after_0830_on (mkdate 2026 2 21) 1))).
    vm_compute. by left. }
  split_and!; [reflexivity | exact Hk |].
  apply (proj2 (C7_record_idempotent (example_config (mkdate 2026 2 21)) [entry_0830])
           (mkdate 2026 3 1) _ (after_0830_on (mkdate 2026 2 21) 1) _ eq_refl Hk).
  repeat constructor.
Defined.

(** ** The clock *)



(** ** Entries that share a slot *)

(** C9: the key is made of the date, the time of day and the title, not
    of the text; so when an entry [E2] first occurs in the plan after a
    different entry [E1] with the same time of day and title, the two
    have one key on every date, and [E2] is never dispatched, in any
    iteration from any loop state. *)
Theorem C9_same_slot_shadowed config l1 E1 l2 E2 :
  E2 ∉ l1 → E1 ≠ E2 →
  time_24h E1 = time_24h E2 → title E1 = title E2 →
  (∀ D, dispatch_key D E1 = dispatch_key D E2)
  ∧ (∀ ps s,
       E2 ∉ dispatched_items (events (run_polls config (l1 ++ E1 :: l2) ps s)))
  ∧ (∀ ps s D,
       attempts_for D E2 (events (run_polls config (l1 ++ E1 :: l2) ps s)) = 0%nat).
Proof.
  intros Hl1 Hne Ht Hti.
  assert (∀ p s, E2 ∉ dispatched_items
                       (events (iteration config (l1 ++ E1 :: l2) p s))) as Hstep.
  { intros p s. destruct (waiting config p) eqn:Hw.
    - rewrite (iteration_waiting _ _ _ _ Hw). cbn [events].
      rewrite nap_no_dispatch. apply not_elem_of_nil.
    - rewrite (iteration_active _ _ _ _ Hw). cbv zeta. cbn [events].
      rewrite dispatched_items_app, nap_no_dispatch, app_nil_r.
      unfold observed_date. by apply for_items_shadowed. }
  assert (∀ ps s, E2 ∉ dispatched_items
                        (events (run_polls config (l1 ++ E1 :: l2) ps s))) as Hrun.
  { intros ps. induction ps as [|p ps IH]; intros s; [apply not_elem_of_nil|].
    destruct (run_polls_cons config (l1 ++ E1 :: l2) p ps s) as (ps' & Hps' & _ & ->).
    rewrite dispatched_items_app. apply not_elem_of_app. split; [apply Hstep|].
    destruct Hps' as [-> | ->]; [apply IH|apply not_elem_of_nil]. }
  split_and!.
  - intros D. by apply dispatch_key_eq.
  - exact Hrun.
  - intros ps s D. specialize (Hrun ps s).
    induction (events (run_polls config (l1 ++ E1 :: l2) ps s)) as [|e tr IH]; [done|].
    unfold attempts_for in *. cbn [List.filter].
    destruct e as [k|t item|k|k x|n]; cbn [dispatched_items dispatched_pair] in *;
      try (rewrite bool_decide_eq_false_2 by done; by apply IH).
    apply not_elem_of_cons in Hrun as [Hitem Hrun].
    rewrite bool_decide_eq_false_2 by (intros [= _ ->]; by apply Hitem).
    by apply IH.
Qed.

Lemma C9_second_text_never_sent :
  (entry_0830_other_text ∉ ([] : list ReminderItem))
  ∧ entry_0830 ≠ entry_0830_other_text
  ∧ dispatched_items
      (events (run_polls (example_config (mkdate 2026 2 21))
                 [entry_0830; entry_0830_other_text]
                 [march 1 8 30 7 client_ok; march 1 8 30 27 client_ok;
                  march 2 8 30 7 client_down]
                 initial_state))
    = [entry_0830; entry_0830]
  ∧ entry_0830_other_text
      ∉ dispatched_items
          (events (run_polls (example_config (mkdate 2026 2 21))
                     ([] ++ entry_0830 :: [entry_0830_other_text])
                     [march 1 8 30 7 client_ok; march 1 8 30 27 client_ok;
                      march 2 8 30 7 client_down]
                     initial_state)).
Proof.
  assert (entry_0830 ≠ entry_0830_other_text) as Hne by discriminate.
  split_and!; [apply not_elem_of_nil | exact Hne | reflexivity |].
  apply (proj1 (proj2 (C9_same_slot_shadowed (example_config (mkdate 2026 2 21))
                         [] entry_0830 [entry_0830_other_text] entry_0830_other_text
                         (not_elem_of_nil _) Hne eq_refl eq_refl))).
Defined.

(** ** WhatsApp numbers *)

Section Strip.

Lemma lstrip_keep ch s : isspace ch = false → lstrip (ch :: s) = ch :: s.
Proof. intros H. cbn [lstrip]. by rewrite H. Qed.

Lemma lstrip_head ch s r : lstrip s = ch :: r → isspace ch = false.
Proof.
  induction s as [|x s IH]; [done|]. cbn [lstrip].
  destruct (isspace x) eqn:Hx; [exact IH|]. by intros [= <- _].
Qed.

Lemma lstrip_idem s : lstrip (lstrip s) = lstrip s.
Proof.
  destruct (lstrip s) as [|ch r] eqn:H; [done|].
  apply lstrip_keep. by apply (lstrip_head ch s r).
Qed.

Lemma lstrip_app u v : lstrip u ≠ [] → lstrip (u ++ v) = lstrip u ++ v.
Proof.
  induction u as [|x u IH]; [done|]. cbn [lstrip app].
  destruct (isspace x); [exact IH|done].
Qed.

Lemma rstrip_idem s : rstrip (rstrip s) = rstrip s.
Proof. unfold rstrip. by rewrite rev_involutive, lstrip_idem. Qed.

Lemma rstrip_app a x : rstrip x ≠ [] → rstrip (a ++ x) = a ++ rstrip x.
Proof.
  unfold rstrip. intros Hx.
  rewrite rev_app_distr, lstrip_app, rev_app_distr, rev_involutive; [done|].
  intros Hnil. apply Hx. by rewrite Hnil.
Qed.

Lemma rstrip_cons ch s : isspace ch = false → rstrip (ch :: s) = ch :: rstrip s.
Proof.
  intros Hch. destruct (decide (rstrip s = [])) as [Hnil|Hne].
  - rewrite Hnil. unfold rstrip in *. cbn [rev].
    apply (f_equal (@rev N)) in Hnil. rewrite rev_involutive in Hnil. cbn in Hnil.
    revert Hnil. generalize (rev s). intros u.
    induction u as [|x u IH]; cbn [lstrip app].
    + intros _. by rewrite Hch.
    + destruct (isspace x); [exact IH|done].
  - by apply (rstrip_app [ch]).
Qed.

(** A stripped string begins and ends with a character that is not
    white space. *)
Lemma strip_lstrip s : lstrip (strip s) = strip s.
Proof.
  unfold strip. destruct (lstrip s) as [|ch r] eqn:H; [done|].
  pose proof (lstrip_head ch s r H) as Hch.
  rewrite rstrip_cons by done. by apply lstrip_keep.
Qed.

Lemma strip_rstrip s : rstrip (strip s) = strip s.
Proof. unfold strip. apply rstrip_idem. Qed.

Lemma strip_idem s : strip (strip s) = strip s.
Proof. unfold strip at 1. by rewrite strip_lstrip, strip_rstrip. Qed.

Lemma startswith_app p x : startswith (p ++ x) p = true.
Proof.
  induction p as [|ch p IH]; [done|].
  cbn [startswith app]. rewrite N.eqb_refl. exact IH.
Qed.

(** Putting the prefix before a stripped string that starts with a plus
    sign gives a stripped string. *)
Lemma strip_prefixed s :
  startswith (strip s) (lit "+") = true →
  strip (lit "whatsapp:" ++ strip s) = lit "whatsapp:" ++ strip s.
Proof.
  intros Hplus. unfold strip at 1.
  assert (strip s ≠ []) as Hne by (by destruct (strip s)).
  assert (lstrip (lit "whatsapp:" ++ strip s) = lit "whatsapp:" ++ strip s) as ->
    by reflexivity.
  rewrite rstrip_app; rewrite strip_rstrip; done.
Qed.

End Strip.

(** C10: normalising a number raises [ValueError] exactly when the
    stripped input starts with neither "whatsapp:" nor "+"; a returned
    value starts with "whatsapp:", and normalising it again returns it
    unchanged. *)
Theorem C10_normalize_whatsapp_number raw env_name :
  ((∃ message, _normalize_whatsapp_number raw env_name = ValueError message)
   ↔ startswith (strip raw) (lit "whatsapp:") = false
     ∧ startswith (strip raw) (lit "+") = false)
  ∧ (∀ value,
       _normalize_whatsapp_number raw env_name = Ok value →
       startswith value (lit "whatsapp:") = true
       ∧ ∀ env_name', _normalize_whatsapp_number value env_name' = Ok value).
Proof.
  unfold _normalize_whatsapp_number. cbv zeta.
  destruct (startswith (strip raw) (lit "whatsapp:")) eqn:Hw;
    [|destruct (startswith (strip raw) (lit "+")) eqn:Hp]; cbn [negb].
  - split; [split; [by intros [? ?]|by intros [? _]]|].
    intros value Hv. assert (value = strip raw) as -> by congruence.
    split; [done|]. intros env'.
    by rewrite strip_idem, Hw.
  - split; [split; [by intros [? ?]|by intros [_ ?]]|].
    intros value Hv.
    assert (value = lit "whatsapp:" ++ strip raw) as -> by congruence.
    split; [apply startswith_app|]. intros env'.
    rewrite strip_prefixed by done. by rewrite startswith_app.
  - split; [split; [done|by eexists]|]. by intros value.
Qed.

Lemma C10_examples :
  _normalize_whatsapp_number (lit "  +911234567890 ") (lit "SISTER_WHATSAPP_NUMBER")
  = Ok (lit "whatsapp:+911234567890")
  ∧ _normalize_whatsapp_number (lit "whatsapp:+911234567890") (lit "TWILIO_WHATSAPP_NUMBER")
    = Ok (lit "whatsapp:+911234567890")
  ∧ startswith (strip (lit " 911234567890")) (lit "whatsapp:") = false
  ∧ startswith (strip (lit " 911234567890")) (lit "+") = false
  ∧ ∃ message,
      _normalize_whatsapp_number (lit " 911234567890") (lit "SISTER_WHATSAPP_NUMBER")
      = ValueError message.
Proof.
  split_and!; [reflexivity | | reflexivity | reflexivity |].
  - apply (proj2 (C10_normalize_whatsapp_number
                    (lit "  +911234567890 ") (lit "SISTER_WHATSAPP_NUMBER"))
             (lit "whatsapp:+911234567890") eq_refl).
  - apply (proj1 (C10_normalize_whatsapp_number
                    (lit " 911234567890") (lit "SISTER_WHATSAPP_NUMBER"))).
    split; reflexivity.
Defined.

(** * Further properties *)

(** ** White space *)

Section Blank.

Lemma blank_app a b : blank (a ++ b) = blank a && blank b.
Proof. apply forallb_app. Qed.

Lemma blank_rev s : blank (rev s) = blank s.
Proof.
  induction s as [|ch s IH]; [done|].
  cbn [rev]. rewrite blank_app, IH. cbn [blank forallb].
  rewrite andb_true_r. apply andb_comm.
Qed.

Lemma lstrip_split s : ∃ ws, s = ws ++ lstrip s ∧ blank ws = true.
Proof.
  induction s as [|ch s (ws & Hs & Hws)]; [by exists []|].
  cbn [lstrip]. destruct (isspace ch) eqn:Hch; [|by exists []].
  exists (ch :: ws). cbn [app blank forallb]. split; [by rewrite <- Hs|].
  by rewrite Hch.
Qed.

Lemma rstrip_split s : ∃ ws, s = rstrip s ++ ws ∧ blank ws = true.
Proof.
  unfold rstrip. destruct (lstrip_split (rev s)) as (ws & Hs & Hws).
  exists (rev ws). split; [|by rewrite blank_rev].
  rewrite <- rev_app_distr, <- Hs. by rewrite rev_involutive.
Qed.

Lemma strip_split s :
  ∃ ws1 ws2, s = ws1 ++ strip s ++ ws2 ∧ blank ws1 = true ∧ blank ws2 = true.
Proof.
  destruct (lstrip_split s) as (ws1 & Hs & H1).
  destruct (rstrip_split (lstrip s)) as (ws2 & Hl & H2).
  exists ws1, ws2. unfold strip. by rewrite <- Hl.
Qed.

Lemma lstrip_nil s : lstrip s = [] ↔ blank s = true.
Proof.
  induction s as [|ch s IH]; [done|].
  cbn [lstrip blank forallb]. destruct (isspace ch); [exact IH|done].
Qed.

Lemma rstrip_nil s : rstrip s = [] ↔ blank s = true.
Proof.
  unfold rstrip. rewrite <- blank_rev, <- lstrip_nil. split; [|by intros ->].
  intros H. apply (f_equal (@rev N)) in H. by rewrite rev_involutive in H.
Qed.

Lemma strip_nil s : strip s = [] ↔ blank s = true.
Proof.
  unfold strip. rewrite rstrip_nil.
  destruct (lstrip_split s) as (ws & Hs & Hws).
  rewrite Hs at 2. rewrite blank_app, Hws. done.
Qed.

(** The first and the last character of a stripped string are not
    white space. *)
Lemma strip_first s ch r : strip s = ch :: r → isspace ch = false.
Proof. intros H. apply (lstrip_head ch (strip s) r). by rewrite strip_lstrip. Qed.

Lemma strip_last s ch r : strip s = r ++ [ch] → isspace ch = false.
Proof.
  intros H. pose proof (strip_rstrip s) as Hr. rewrite H in Hr.
  unfold rstrip in Hr. rewrite rev_app_distr in Hr. cbn [rev app] in Hr.
  destruct (isspace ch) eqn:Hch; [|done].
  cbn [lstrip] in Hr. rewrite Hch in Hr.
  apply (f_equal (@length N)) in Hr.
  rewrite length_rev, length_app in Hr. cbn [length] in Hr.
  destruct (lstrip_split (rev r)) as (ws & Hs & _).
  apply (f_equal (@length N)) in Hs. rewrite length_rev, length_app in Hs. lia.
Qed.

(** What [strip] gives back is a fixed point of [strip]; and a string
    that begins and ends with other characters than white space is
    one. *)
Lemma strip_fixed_ends s first last_ch middle :
  s = first :: middle ++ [last_ch] →
  isspace first = false → isspace last_ch = false → strip s = s.
Proof.
  intros -> Hf Hl. unfold strip. rewrite lstrip_keep by done.
  rewrite rstrip_cons by done. f_equal.
  rewrite rstrip_app; [f_equal|]; unfold rstrip; cbn [rev app lstrip];
    by rewrite Hl.
Qed.

End Blank.

(** ** Required variables *)

(** X1: [_require_env] raises exactly when the variable is not set or
    its value is nothing but white space (the empty value included), and
    the message then names the variable. *)
Theorem X1_require_env_raises environ name :
  ((∃ message, _require_env environ name = ValueError message)
   ↔ environ !! name = None
     ∨ ∃ raw, environ !! name = Some raw ∧ blank raw = true)
  ∧ (∀ message,
       _require_env environ name = ValueError message →
       message = lit "Missing required environment variable: " ++ lit name).
Proof.
  unfold _require_env, getenv. cbv zeta.
  destruct (environ !! name) as [raw|] eqn:Hraw.
  - destruct (strip raw) as [|ch r] eqn:Hs.
    + apply strip_nil in Hs. split; [|by intros ? [= <-]].
      split; [intros _; right; by exists raw|by eexists].
    + split; [|done]. split; [by intros [? ?]|].
      intros [?|(raw' & [= <-] & Hb)]; [done|].
      apply strip_nil in Hb. congruence.
  - split; [|by intros ? [= <-]]. split; [by left|by eexists].
Qed.

(** X2: what [_require_env] returns is the value of the variable
    without the white space around it: it is not empty, it neither
    begins nor ends with white space, and a variable set to it is
    returned as it is. *)
Theorem X2_require_env_value environ name value :
  _require_env environ name = Ok value →
  (∃ raw ws1 ws2,
     environ !! name = Some raw ∧ raw = ws1 ++ value ++ ws2
     ∧ blank ws1 = true ∧ blank ws2 = true)
  ∧ value ≠ []
  ∧ (∀ ch r, value = ch :: r → isspace ch = false)
  ∧ (∀ ch r, value = r ++ [ch] → isspace ch = false)
  ∧ (∀ environ' : gmap string pystr,
       environ' !! name = Some value → _require_env environ' name = Ok value).
Proof.
  unfold _require_env, getenv. cbv zeta.
  destruct (environ !! name) as [raw|] eqn:Hraw; [|done].
  destruct (strip raw) as [|ch r] eqn:Hs; [done|].
  intros Hv. assert (value = strip raw) as -> by congruence.
  split_and!.
  - destruct (strip_split raw) as (ws1 & ws2 & H & H1 & H2). by exists raw, ws1, ws2.
  - by rewrite Hs.
  - intros ch' r'. apply strip_first.
  - intros ch' r'. apply strip_last.
  - intros environ' ->. by rewrite strip_idem, Hs.
Qed.

Lemma X2_account_sid :
  _require_env example_environ "TWILIO_ACCOUNT_SID" = Ok (lit "ACxxxx")
  ∧ _require_env (<["TWILIO_ACCOUNT_SID" := lit "ACxxxx"]> example_environ)
      "TWILIO_ACCOUNT_SID" = Ok (lit "ACxxxx").
Proof.
  split; [reflexivity|].
  apply (X2_require_env_value example_environ "TWILIO_ACCOUNT_SID" (lit "ACxxxx")
           eq_refl).
  reflexivity.
Defined.

(** ** What normalising a number keeps and what it does not check *)

Section Normalize.

Lemma strip_keeps (p tail : pystr) :
  p ≠ [] → strip p = p → rstrip tail = tail → strip (p ++ tail) = p ++ tail.
Proof.
  intros Hp Hs Htail. destruct p as [|ch p]; [done|].
  pose proof (strip_first _ _ _ Hs) as Hch.
  unfold strip. cbn [app]. rewrite lstrip_keep by done.
  change (ch :: p ++ tail) with ((ch :: p) ++ tail).
  destruct tail as [|x tail].
  - rewrite app_nil_r, <- Hs. apply strip_rstrip.
  - rewrite rstrip_app; rewrite Htail; done.
Qed.

Lemma normalize_again value env_name env_name' raw :
  _normalize_whatsapp_number raw env_name = Ok value →
  strip value = value ∧ value ≠ []
  ∧ _normalize_whatsapp_number value env_name' = Ok value.
Proof.
  unfold _normalize_whatsapp_number. cbv zeta.
  destruct (startswith (strip raw) (lit "whatsapp:")) eqn:Hw;
    [|destruct (startswith (strip raw) (lit "+")) eqn:Hp]; cbn [negb];
    intros Hv; [| |done].
  - assert (value = strip raw) as -> by congruence.
    rewrite strip_idem, Hw. split_and!; [done| |done].
    intros Hnil. by rewrite Hnil in Hw.
  - assert (value = lit "whatsapp:" ++ strip raw) as -> by congruence.
    rewrite strip_prefixed by done. rewrite startswith_app.
    split_and!; done.
Qed.

End Normalize.

(** X3: a number that is accepted comes back with nothing changed but
    the white space around it removed and, when it began with a plus
    sign, the prefix put before it; the result has no white space
    around it. *)
Theorem X3_normalize_keeps_the_number raw env_name value :
  _normalize_whatsapp_number raw env_name = Ok value →
  (∃ ws1 core ws2,
     raw = ws1 ++ core ++ ws2 ∧ blank ws1 = true ∧ blank ws2 = true
     ∧ (value = core ∧ startswith core (lit "whatsapp:") = true
        ∨ value = lit "whatsapp:" ++ core ∧ startswith core (lit "+") = true))
  ∧ strip value = value.
Proof.
  intros Hv. split; [|by apply (normalize_again value env_name env_name raw)].
  destruct (strip_split raw) as (ws1 & ws2 & H & H1 & H2).
  exists ws1, (strip raw), ws2. split_and!; [done..|].
  revert Hv. unfold _normalize_whatsapp_number. cbv zeta.
  destruct (startswith (strip raw) (lit "whatsapp:")) eqn:Hw;
    [|destruct (startswith (strip raw) (lit "+")) eqn:Hp]; cbn [negb];
    intros Hv; [left|right|done]; split; congruence.
Qed.

Lemma X3_spaces_around_a_number :
  _normalize_whatsapp_number (lit "  +91 12345 67890 ") (lit "SISTER_WHATSAPP_NUMBER")
  = Ok (lit "whatsapp:+91 12345 67890")
  ∧ strip (lit "whatsapp:+91 12345 67890") = lit "whatsapp:+91 12345 67890".
Proof.
  split; [reflexivity|].
  apply (X3_normalize_keeps_the_number (lit "  +91 12345 67890 ")
           (lit "SISTER_WHATSAPP_NUMBER") _ eq_refl).
Defined.

(** X4: only the beginning of the stripped text is looked at.  Whatever
    follows "whatsapp:" or "+" (nothing at all, letters, inner spaces)
    is accepted: no E.164 check is made. *)
Theorem X4_normalize_checks_the_prefix_only tail env_name :
  rstrip tail = tail →
  _normalize_whatsapp_number (lit "whatsapp:" ++ tail) env_name
  = Ok (lit "whatsapp:" ++ tail)
  ∧ _normalize_whatsapp_number (lit "+" ++ tail) env_name
    = Ok (lit "whatsapp:" ++ lit "+" ++ tail).
Proof.
  intros Htail. unfold _normalize_whatsapp_number. cbv zeta.
  rewrite !strip_keeps by done.
  rewrite startswith_app. split; [done|].
  change (startswith (lit "+" ++ tail) (lit "whatsapp:")) with false.
  cbv iota. by rewrite startswith_app.
Qed.

Lemma X4_not_a_number :
  rstrip (lit "not a number") = lit "not a number"
  ∧ _normalize_whatsapp_number (lit "whatsapp:not a number") (lit "SISTER_WHATSAPP_NUMBER")
    = Ok (lit "whatsapp:not a number")
  ∧ _normalize_whatsapp_number (lit "whatsapp:") (lit "SISTER_WHATSAPP_NUMBER")
    = Ok (lit "whatsapp:")
  ∧ _normalize_whatsapp_number (lit "+") (lit "SISTER_WHATSAPP_NUMBER")
    = Ok (lit "whatsapp:+").
Proof.
  split_and!; [reflexivity | | | ].
  - apply (proj1 (X4_normalize_checks_the_prefix_only (lit "not a number")
                    (lit "SISTER_WHATSAPP_NUMBER") eq_refl)).
  - apply (proj1 (X4_normalize_checks_the_prefix_only [] (lit "SISTER_WHATSAPP_NUMBER")
                    eq_refl)).
  - apply (proj2 (X4_normalize_checks_the_prefix_only [] (lit "SISTER_WHATSAPP_NUMBER")
                    eq_refl)).
Defined.

(** ** Loading the configuration *)

Section LoadConfigFacts.

Variable fromisoformat : pystr → result date.
Variable int : pystr → result Z.

Abbreviation load := (load_config fromisoformat int).

Lemma string_append_assoc (a b c : string) : (a +:+ b) +:+ c = a +:+ (b +:+ c).
Proof.
  induction a as [|ch a IH]; [done|].
  change (String ch ((a +:+ b) +:+ c) = String ch (a +:+ (b +:+ c))). by f_equal.
Qed.

Lemma utf8_app a b : utf8 (a ++ b) = utf8 a +:+ utf8 b.
Proof.
  induction a as [|ch a IH]; [done|].
  cbn [app utf8]. by rewrite IH, string_append_assoc.
Qed.

Lemma utf8_not_empty ch r : utf8 (ch :: r) ≠ "".
Proof.
  cbn [utf8]. unfold utf8_char.
  repeat case_match; cbn [fmap list_fmap string_of_list_ascii String.append];
    discriminate.
Qed.

Lemma startswith_split s p : startswith s p = true → ∃ rest, s = p ++ rest.
Proof.
  revert s. induction p as [|x p IH]; intros s; [by exists s|].
  destruct s as [|ch s]; [done|]. cbn [startswith].
  intros [Hx Hs]%andb_true_iff. apply N.eqb_eq in Hx as ->.
  destruct (IH s Hs) as [rest ->]. by exists rest.
Qed.

Lemma normalize_prefix raw env_name value :
  _normalize_whatsapp_number raw env_name = Ok value →
  startswith value (lit "whatsapp:") = true.
Proof.
  unfold _normalize_whatsapp_number. cbv zeta.
  destruct (startswith (strip raw) (lit "whatsapp:")) eqn:Hw;
    [|destruct (startswith (strip raw) (lit "+")) eqn:Hp]; cbn [negb];
    intros Hv; [| |done].
  - by assert (value = strip raw) as -> by congruence.
  - assert (value = lit "whatsapp:" ++ strip raw) as -> by congruence.
    apply startswith_app.
Qed.

Lemma normalize_strip raw env_name :
  _normalize_whatsapp_number (strip raw) env_name
  = _normalize_whatsapp_number raw env_name.
Proof. unfold _normalize_whatsapp_number. by rewrite strip_idem. Qed.

Lemma getenv_insert_ne (environ : gmap string pystr) name name' value default :
  name ≠ name' →
  getenv (<[name := value]> environ) name' default = getenv environ name' default.
Proof. intros H. unfold getenv. by rewrite lookup_insert_ne. Qed.

Lemma require_env_insert_ne (environ : gmap string pystr) name name' value :
  name ≠ name' →
  _require_env (<[name := value]> environ) name' = _require_env environ name'.
Proof. intros H. unfold _require_env. by rewrite getenv_insert_ne. Qed.

Lemma require_env_set (environ : gmap string pystr) name raw :
  environ !! name = Some raw → strip raw ≠ [] →
  _require_env environ name = Ok (strip raw).
Proof.
  intros H Hne. unfold _require_env, getenv. rewrite H. cbv zeta.
  by destruct (strip raw).
Qed.

Lemma require_env_blank (environ : gmap string pystr) name :
  blank (getenv environ name []) = true →
  _require_env environ name
  = ValueError (lit "Missing required environment variable: " ++ lit name).
Proof.
  intros H. apply strip_nil in H. unfold _require_env. cbv zeta. by rewrite H.
Qed.

Lemma require_env_not_blank (environ : gmap string pystr) name value :
  _require_env environ name = Ok value → blank (getenv environ name []) = false.
Proof.
  unfold _require_env. cbv zeta. intros H.
  destruct (blank (getenv environ name [])) eqn:Hb; [|done].
  apply strip_nil in Hb. by rewrite Hb in H.
Qed.

(** A configuration is returned only when every step has succeeded. *)
Lemma load_config_ok environ config :
  load environ = Ok config →
  ∃ sid token twilio_raw twilio sister_raw sister start weekday interval,
    _require_env environ "TWILIO_ACCOUNT_SID" = Ok sid
    ∧ _require_env environ "TWILIO_AUTH_TOKEN" = Ok token
    ∧ _require_env environ "TWILIO_WHATSAPP_NUMBER" = Ok twilio_raw
    ∧ _normalize_whatsapp_number twilio_raw (lit "TWILIO_WHATSAPP_NUMBER") = Ok twilio
    ∧ _require_env environ "SISTER_WHATSAPP_NUMBER" = Ok sister_raw
    ∧ _normalize_whatsapp_number sister_raw (lit "SISTER_WHATSAPP_NUMBER") = Ok sister
    ∧ fromisoformat (getenv environ "START_DATE" (lit "2026-02-21")) = Ok start
    ∧ int (getenv environ "CALCIUM_REMINDER_WEEKDAY" (lit "5")) = Ok weekday
    ∧ int (getenv environ "POLL_INTERVAL_SECONDS" (lit "20")) = Ok interval
    ∧ config =
        mkAppConfig (utf8 sid) (utf8 token) (utf8 twilio) (utf8 sister)
          (utf8 (getenv environ "TIMEZONE" (lit "Asia/Kolkata")))
          start weekday
          (utf8 (getenv environ "CALCIUM_REMINDER_TIME" (lit "09:00")))
          interval.
Proof.
  unfold load_config.
  destruct (_require_env environ "TWILIO_ACCOUNT_SID") as [sid|] eqn:H1;
    cbn [mbind result_bind]; [|done].
  destruct (_require_env environ "TWILIO_AUTH_TOKEN") as [token|] eqn:H2;
    cbn [mbind result_bind]; [|done].
  destruct (_require_env environ "TWILIO_WHATSAPP_NUMBER") as [twilio_raw|] eqn:H3;
    cbn [mbind result_bind]; [|done].
  destruct (_normalize_whatsapp_number twilio_raw _) as [twilio|] eqn:H4;
    cbn [mbind result_bind]; [|done].
  destruct (_require_env environ "SISTER_WHATSAPP_NUMBER") as [sister_raw|] eqn:H5;
    cbn [mbind result_bind]; [|done].
  destruct (_normalize_whatsapp_number sister_raw _) as [sister|] eqn:H6;
    cbn [mbind result_bind]; [|done].
  cbv zeta.
  destruct (fromisoformat _) as [start|] eqn:H7; cbn [mbind result_bind]; [|done].
  destruct (int (getenv environ "CALCIUM_REMINDER_WEEKDAY" _)) as [weekday|] eqn:H8;
    cbn [mbind result_bind]; [|done].
  destruct (int (getenv environ "POLL_INTERVAL_SECONDS" _)) as [interval|] eqn:H9;
    cbn [mbind result_bind]; [|done].
  intros Hc. exists sid, token, twilio_raw, twilio, sister_raw, sister, start,
    weekday, interval.
  split_and!; try done. congruence.
Qed.

End LoadConfigFacts.

Lemma require_env_value (environ : gmap string pystr) name :
  blank (getenv environ name []) = false →
  _require_env environ name = Ok (strip (getenv environ name [])).
Proof.
  intros H. unfold _require_env. cbv zeta.
  destruct (strip (getenv environ name [])) eqn:Hs; [|done].
  apply strip_nil in Hs. congruence.
Qed.

Lemma getenv_default_l (environ : gmap string pystr) name default :
  default_environ !! name = None →
  getenv (environ ∪ default_environ) name default = getenv environ name default.
Proof. intros H. unfold getenv. by rewrite lookup_union_l. Qed.

Lemma getenv_default_r (environ : gmap string pystr) name default :
  default_environ !! name = Some default →
  getenv (environ ∪ default_environ) name default = getenv environ name default.
Proof.
  intros H. unfold getenv. rewrite lookup_union, H.
  by destruct (environ !! name).
Qed.

(** X5: a configuration that [load_config] returns has both WhatsApp
    numbers beginning with "whatsapp:", however they were written in the
    environment, and an account id and a token that are not empty. *)
Theorem X5_loaded_numbers_are_prefixed fromisoformat int environ config :
  load_config fromisoformat int environ = Ok config →
  (∃ rest, twilio_whatsapp_number config = "whatsapp:" +:+ rest)
  ∧ (∃ rest, sister_whatsapp_number config = "whatsapp:" +:+ rest)
  ∧ twilio_account_sid config ≠ ""
  ∧ twilio_auth_token config ≠ "".
Proof.
  intros H. apply load_config_ok in H
    as (sid & token & traw & twilio & sraw & sister & start & wd & iv
        & H1 & H2 & H3 & H4 & H5 & H6 & _ & _ & _ & ->).
  cbn [twilio_whatsapp_number sister_whatsapp_number twilio_account_sid
         twilio_auth_token].
  apply normalize_prefix, startswith_split in H4 as [rest4 ->].
  apply normalize_prefix, startswith_split in H6 as [rest6 ->].
  rewrite !utf8_app. split_and!.
  - by exists (utf8 rest4).
  - by exists (utf8 rest6).
  - apply require_env_not_blank in H1 as Hb. rewrite (require_env_value _ _ Hb) in H1.
    assert (sid ≠ []) as Hne.
    { intros ->. injection H1 as H1. apply strip_nil in H1. congruence. }
    destruct sid; [done|]. apply utf8_not_empty.
  - apply require_env_not_blank in H2 as Hb. rewrite (require_env_value _ _ Hb) in H2.
    assert (token ≠ []) as Hne.
    { intros ->. injection H2 as H2. apply strip_nil in H2. congruence. }
    destruct token; [done|]. apply utf8_not_empty.
Qed.

Lemma X5_example_environ :
  load_config example_fromisoformat example_int example_environ
  = Ok (mkAppConfig "ACxxxx" "token" "whatsapp:+14155238886"
          "whatsapp:+911234567890" "Asia/Kolkata" (mkdate 2026 2 21) 5 "09:00" 20)
  ∧ ∃ rest, "whatsapp:+911234567890" = "whatsapp:" +:+ rest.
Proof.
  split; [reflexivity|].
  apply (X5_loaded_numbers_are_prefixed example_fromisoformat example_int
           example_environ _ eq_refl).
Defined.

(** X6: [load_config] returns no configuration unless the four required
    variables are set to something other than white space; and the
    first of them that is missing, in the order account id, token,
    sender, recipient, is the one the error names, whatever else is
    wrong further on. *)
Theorem X6_required_variables fromisoformat int environ :
  (∀ config,
     load_config fromisoformat int environ = Ok config →
     blank (getenv environ "TWILIO_ACCOUNT_SID" []) = false
     ∧ blank (getenv environ "TWILIO_AUTH_TOKEN" []) = false
     ∧ blank (getenv environ "TWILIO_WHATSAPP_NUMBER" []) = false
     ∧ blank (getenv environ "SISTER_WHATSAPP_NUMBER" []) = false)
  ∧ (blank (getenv environ "TWILIO_ACCOUNT_SID" []) = true →
     load_config fromisoformat int environ
     = ValueError (lit "Missing required environment variable: TWILIO_ACCOUNT_SID"))
  ∧ (blank (getenv environ "TWILIO_ACCOUNT_SID" []) = false →
     blank (getenv environ "TWILIO_AUTH_TOKEN" []) = true →
     load_config fromisoformat int environ
     = ValueError (lit "Missing required environment variable: TWILIO_AUTH_TOKEN"))
  ∧ (blank (getenv environ "TWILIO_ACCOUNT_SID" []) = false →
     blank (getenv environ "TWILIO_AUTH_TOKEN" []) = false →
     blank (getenv environ "TWILIO_WHATSAPP_NUMBER" []) = true →
     load_config fromisoformat int environ
     = ValueError (lit "Missing required environment variable: TWILIO_WHATSAPP_NUMBER"))
  ∧ (∀ twilio,
       blank (getenv environ "TWILIO_ACCOUNT_SID" []) = false →
       blank (getenv environ "TWILIO_AUTH_TOKEN" []) = false →
       _normalize_whatsapp_number (getenv environ "TWILIO_WHATSAPP_NUMBER" [])
         (lit "TWILIO_WHATSAPP_NUMBER") = Ok twilio →
       blank (getenv environ "SISTER_WHATSAPP_NUMBER" []) = true →
       load_config fromisoformat int environ
       = ValueError (lit "Missing required environment variable: SISTER_WHATSAPP_NUMBER")).
Proof.
  split_and!.
  - intros config H. apply load_config_ok in H
      as (sid & token & traw & twilio & sraw & sister & start & wd & iv
          & H1 & H2 & H3 & _ & H5 & _).
    split_and!; by eapply require_env_not_blank.
  - intros H1. unfold load_config. by rewrite (require_env_blank _ _ H1).
  - intros H1 H2. unfold load_config.
    by rewrite (require_env_value _ _ H1), (require_env_blank _ _ H2).
  - intros H1 H2 H3. unfold load_config.
    by rewrite (require_env_value _ _ H1), (require_env_value _ _ H2),
      (require_env_blank _ _ H3).
  - intros twilio H1 H2 Hn H4. unfold load_config.
    assert (blank (getenv environ "TWILIO_WHATSAPP_NUMBER" []) = false) as H3.
    { destruct (blank (getenv environ "TWILIO_WHATSAPP_NUMBER" [])) eqn:Hb; [|done].
      apply strip_nil in Hb.
      revert Hn. unfold _normalize_whatsapp_number. cbv zeta. rewrite Hb.
      discriminate. }
    rewrite (require_env_value _ _ H1), (require_env_value _ _ H2),
      (require_env_value _ _ H3).
    cbn [mbind result_bind]. rewrite normalize_strip, Hn.
    cbn [mbind result_bind]. by rewrite (require_env_blank _ _ H4).
Qed.

Lemma X6_token_missing :
  blank (getenv (delete "TWILIO_AUTH_TOKEN" example_environ) "TWILIO_ACCOUNT_SID" [])
  = false
  ∧ blank (getenv (delete "TWILIO_AUTH_TOKEN" example_environ) "TWILIO_AUTH_TOKEN" [])
    = true
  ∧ load_config example_fromisoformat example_int
      (delete "TWILIO_AUTH_TOKEN" example_environ)
    = ValueError (lit "Missing required environment variable: TWILIO_AUTH_TOKEN").
Proof.
  assert (blank (getenv (delete "TWILIO_AUTH_TOKEN" example_environ)
                   "TWILIO_ACCOUNT_SID" []) = false) as H1 by reflexivity.
  assert (blank (getenv (delete "TWILIO_AUTH_TOKEN" example_environ)
                   "TWILIO_AUTH_TOKEN" []) = true) as H2 by reflexivity.
  split_and!; [exact H1 | exact H2 |].
  exact (proj1 (proj2 (proj2 (X6_required_variables example_fromisoformat example_int
                                (delete "TWILIO_AUTH_TOKEN" example_environ))))
           H1 H2).
Defined.

Lemma normalize_not_blank raw env_name value :
  _normalize_whatsapp_number raw env_name = Ok value → strip raw ≠ [].
Proof.
  unfold _normalize_whatsapp_number. cbv zeta. intros H Hnil.
  rewrite Hnil in H. discriminate.
Qed.

Lemma require_env_normal_form (environ : gmap string pystr) name raw value :
  environ !! name = Some raw →
  _normalize_whatsapp_number raw (lit name) = Ok value →
  _require_env environ name = Ok (strip raw)
  ∧ _normalize_whatsapp_number (strip raw) (lit name) = Ok value
  ∧ _require_env (<[name := value]> environ) name = Ok value
  ∧ _normalize_whatsapp_number value (lit name) = Ok value.
Proof.
  intros Hraw Hn.
  destruct (normalize_again value (lit name) (lit name) raw Hn) as (Hs & Hne & Hagain).
  split_and!.
  - apply require_env_set; [done|]. by apply (normalize_not_blank raw (lit name) value).
  - by rewrite normalize_strip.
  - rewrite <- Hs at 2. apply require_env_set; [apply lookup_insert_eq|].
    by rewrite Hs.
  - done.
Qed.

(** X7: writing a number in the environment the way [load_config]
    stores it (no white space around it, the prefix in front) changes
    nothing: the configuration, or the error, is the same. *)
Theorem X7_normal_form_loads_the_same fromisoformat int environ name raw value :
  name = "TWILIO_WHATSAPP_NUMBER" ∨ name = "SISTER_WHATSAPP_NUMBER" →
  environ !! name = Some raw →
  _normalize_whatsapp_number raw (lit name) = Ok value →
  load_config fromisoformat int (<[name := value]> environ)
  = load_config fromisoformat int environ.
Proof.
  intros Hname Hraw Hn.
  destruct (require_env_normal_form environ name raw value Hraw Hn)
    as (R1 & N1 & R2 & N2).
  unfold load_config. destruct Hname as [-> | ->].
  - rewrite (require_env_insert_ne environ _ "TWILIO_ACCOUNT_SID") by done.
    rewrite (require_env_insert_ne environ _ "TWILIO_AUTH_TOKEN") by done.
    rewrite (require_env_insert_ne environ _ "SISTER_WHATSAPP_NUMBER") by done.
    rewrite !(getenv_insert_ne environ "TWILIO_WHATSAPP_NUMBER") by done.
    rewrite R1, R2.
    destruct (_require_env environ "TWILIO_ACCOUNT_SID");
      cbn [mbind result_bind]; [|done].
    destruct (_require_env environ "TWILIO_AUTH_TOKEN");
      cbn [mbind result_bind]; [|done].
    by rewrite N1, N2.
  - rewrite (require_env_insert_ne environ _ "TWILIO_ACCOUNT_SID") by done.
    rewrite (require_env_insert_ne environ _ "TWILIO_AUTH_TOKEN") by done.
    rewrite (require_env_insert_ne environ _ "TWILIO_WHATSAPP_NUMBER") by done.
    rewrite !(getenv_insert_ne environ "SISTER_WHATSAPP_NUMBER") by done.
    rewrite R1, R2.
    destruct (_require_env environ "TWILIO_ACCOUNT_SID");
      cbn [mbind result_bind]; [|done].
    destruct (_require_env environ "TWILIO_AUTH_TOKEN");
      cbn [mbind result_bind]; [|done].
    destruct (_require_env environ "TWILIO_WHATSAPP_NUMBER");
      cbn [mbind result_bind]; [|done].
    destruct (_normalize_whatsapp_number _ (lit "TWILIO_WHATSAPP_NUMBER"));
      cbn [mbind result_bind]; [|done].
    by rewrite N1, N2.
Qed.

Lemma X7_sister_number_rewritten :
  example_environ !! "SISTER_WHATSAPP_NUMBER" = Some (lit "  whatsapp:+911234567890 ")
  ∧ load_config example_fromisoformat example_int
      (<["SISTER_WHATSAPP_NUMBER" := lit "whatsapp:+911234567890"]> example_environ)
    = load_config example_fromisoformat example_int example_environ.
Proof.
  assert (example_environ !! "SISTER_WHATSAPP_NUMBER"
          = Some (lit "  whatsapp:+911234567890 ")) as H by reflexivity.
  split; [exact H|].
  apply (X7_normal_form_loads_the_same example_fromisoformat example_int
           example_environ "SISTER_WHATSAPP_NUMBER" _ _ (or_intror eq_refl) H).
  reflexivity.
Defined.

(** X8: a variable that has a default and is not set loads as if it
    were set to the default: time zone "Asia/Kolkata", start date
    "2026-02-21", weekday "5", calcium time "09:00", poll interval
    "20"; and a variable that is set is not overridden by its default:
    in a configuration that is returned, each of the five fields comes
    from the text the variable is set to (also when that text is
    empty), and from the default text only when the variable is not
    set. *)
Theorem X8_defaults fromisoformat int (environ : gmap string pystr) :
  load_config fromisoformat int (environ ∪ default_environ)
  = load_config fromisoformat int environ
  ∧ ∀ config,
      load_config fromisoformat int environ = Ok config →
      timezone config
      = utf8 (match environ !! "TIMEZONE" with
              | Some value => value
              | None => lit "Asia/Kolkata"
              end)
      ∧ fromisoformat (match environ !! "START_DATE" with
                       | Some value => value
                       | None => lit "2026-02-21"
                       end)
        = Ok (start_date config)
      ∧ int (match environ !! "CALCIUM_REMINDER_WEEKDAY" with
             | Some value => value
             | None => lit "5"
             end)
        = Ok (calcium_reminder_weekday config)
      ∧ calcium_reminder_time config
        = utf8 (match environ !! "CALCIUM_REMINDER_TIME" with
                | Some value => value
                | None => lit "09:00"
                end)
      ∧ int (match environ !! "POLL_INTERVAL_SECONDS" with
             | Some value => value
             | None => lit "20"
             end)
        = Ok (poll_interval_seconds config).
Proof.
  split; [|intros config Hload;
           apply load_config_ok in Hload
             as (sid & token & twilio_raw & twilio & sister_raw & sister & start
                 & weekday & interval & _ & _ & _ & _ & _ & _ & H7 & H8 & H9 & ->);
           cbn [timezone start_date calcium_reminder_weekday calcium_reminder_time
                poll_interval_seconds];
           split_and!; [reflexivity|exact H7|exact H8|reflexivity|exact H9]].
  unfold load_config, _require_env.
  rewrite (getenv_default_l environ "TWILIO_ACCOUNT_SID") by reflexivity.
  rewrite (getenv_default_l environ "TWILIO_AUTH_TOKEN") by reflexivity.
  rewrite (getenv_default_l environ "TWILIO_WHATSAPP_NUMBER") by reflexivity.
  rewrite (getenv_default_l environ "SISTER_WHATSAPP_NUMBER") by reflexivity.
  rewrite (getenv_default_r environ "TIMEZONE") by reflexivity.
  rewrite (getenv_default_r environ "START_DATE") by reflexivity.
  rewrite (getenv_default_r environ "CALCIUM_REMINDER_WEEKDAY") by reflexivity.
  rewrite (getenv_default_r environ "CALCIUM_REMINDER_TIME") by reflexivity.
  rewrite (getenv_default_r environ "POLL_INTERVAL_SECONDS") by reflexivity.
  reflexivity.
Qed.

(** With TIMEZONE set to "UTC" and POLL_INTERVAL_SECONDS to "5", the
    configuration has these and not the defaults "Asia/Kolkata" and
    "20"; the start date, which is not set, is the default one. *)
Lemma X8_set_variables_win :
  ∃ config,
    load_config example_fromisoformat example_int
      (<["TIMEZONE" := lit "UTC"]>
         (<["POLL_INTERVAL_SECONDS" := lit "5"]> example_environ))
    = Ok config
    ∧ timezone config = "UTC"
    ∧ Ok (poll_interval_seconds config) = Ok 5
    ∧ Ok (start_date config) = Ok (mkdate 2026 2 21).
Proof.
  destruct (load_config example_fromisoformat example_int
              (<["TIMEZONE" := lit "UTC"]>
                 (<["POLL_INTERVAL_SECONDS" := lit "5"]> example_environ)))
    as [config|message] eqn:Hload; [|by vm_compute in Hload].
  exists config. split; [reflexivity|].
  destruct (proj2 (X8_defaults example_fromisoformat example_int
                     (<["TIMEZONE" := lit "UTC"]>
                        (<["POLL_INTERVAL_SECONDS" := lit "5"]> example_environ)))
              config Hload) as (Htz & Hstart & _ & _ & Hint).
  split; [rewrite Htz; reflexivity|].
  split; [rewrite <- Hint; reflexivity|].
  rewrite <- Hstart. reflexivity.
Defined.

(** ** Keys and times as text *)

Section Texts.

Lemma append_same_length (a b x y : string) :
  String.length a = String.length b → a +:+ x = b +:+ y → a = b ∧ x = y.
Proof.
  revert b. induction a as [|ch a IH]; intros [|ch' b]; try discriminate.
  - done.
  - cbn [String.length String.append]. intros [= Hlen] [= -> H].
    destruct (IH b Hlen H) as [-> ->]. done.
Qed.

Lemma hour12_range h : 0 <= h < 24 → 1 <= hour12 h <= 12.
Proof.
  intros Hh. unfold hour12.
  destruct (Z.eqb_spec (h mod 12) 0); [lia|].
  pose proof (Z.mod_pos_bound h 12 eq_refl). lia.
Qed.

Lemma hour12_half_inj h h' :
  0 <= h < 24 → 0 <= h' < 24 →
  hour12 h = hour12 h' → (h <? 12) = (h' <? 12) → h = h'.
Proof.
  intros Hh Hh'. unfold hour12.
  destruct (Z.eqb_spec (h mod 12) 0) as [E0|E0],
    (Z.eqb_spec (h' mod 12) 0) as [E0'|E0'],
    (Z.ltb_spec h 12), (Z.ltb_spec h' 12);
    intros Heq Hhalf; try discriminate;
    revert E0 E0' Heq; Z.div_mod_to_equations; lia.
Qed.

Lemma strftime_IMp_inj t t' :
  valid_clock t → valid_clock t' →
  strftime_IMp t = strftime_IMp t' →
  dt_hour t = dt_hour t' ∧ dt_minute t = dt_minute t'.
Proof.
  intros [Hh Hm] [Hh' Hm'].
  pose proof (hour12_range _ Hh) as R. pose proof (hour12_range _ Hh') as R'.
  unfold strftime_IMp. intros H.
  apply fmt02_inj in H as [H12 H]; [|lia..]. apply String_tail in H.
  apply fmt02_inj in H as [Hmin Hhalf]; [|lia..].
  split; [|done]. apply hour12_half_inj; [done..|].
  destruct (dt_hour t <? 12), (dt_hour t' <? 12); done.
Qed.

Lemma strftime_IMp_length t : String.length (strftime_IMp t) = 8%nat.
Proof. unfold strftime_IMp. by destruct (dt_hour t <? 12). Qed.

Lemma string_length_append (a b : string) :
  String.length (a +:+ b) = (String.length a + String.length b)%nat.
Proof.
  induction a as [|ch a IH]; [done|].
  change (S (String.length (a +:+ b)) = S (String.length a + String.length b)).
  by rewrite IH.
Qed.

Lemma append_cancel_r (x y s : string) : x +:+ s = y +:+ s → x = y.
Proof.
  intros H. apply (append_same_length x y s s); [|done].
  apply (f_equal String.length) in H. rewrite !string_length_append in H. lia.
Qed.

Lemma split_at_line_break (a a' x y : string) :
  one_line a = true → one_line a' = true →
  a +:+ newline +:+ x = a' +:+ newline +:+ y → a = a' ∧ x = y.
Proof.
  change (newline +:+ x) with (String (ascii_of_nat 10) x).
  change (newline +:+ y) with (String (ascii_of_nat 10) y).
  assert (∀ s : string, "" +:+ s = s) as Hnil by done.
  assert (∀ c (r s : string), String c r +:+ s = String c (r +:+ s)) as Hcons by done.
  revert a'. induction a as [|ch a IH]; intros [|ch' a'];
    rewrite ?Hnil, ?Hcons; cbn [one_line].
  - intros _ _ H. split; [done|]. congruence.
  - intros _ Ha' H. assert (ch' = ascii_of_nat 10) as -> by congruence.
    by rewrite Ascii.eqb_refl in Ha'.
  - intros Ha _ H. assert (ch = ascii_of_nat 10) as -> by congruence.
    by rewrite Ascii.eqb_refl in Ha.
  - intros [_ Ha]%andb_true_iff [_ Ha']%andb_true_iff H.
    assert (ch = ch') as -> by congruence.
    apply String_tail in H. destruct (IH a' Ha Ha' H) as [-> ->]. done.
Qed.

End Texts.

(** X9: for entries whose times of day are texts of one length (five
    characters, "HH:MM", for every entry that can come due) and for
    valid dates, the key tells the date, the time of day and the title
    apart: two keys are equal only if all three are. *)
Theorem X9_key_tells_slots_apart D D' E E' :
  valid_date D → valid_date D' →
  String.length (time_24h E) = String.length (time_24h E') →
  dispatch_key D E = dispatch_key D' E' →
  D = D' ∧ time_24h E = time_24h E' ∧ title E = title E'.
Proof.
  intros HD HD' Hlen Hkey.
  pose proof (dispatch_key_date_inj D D' E E' HD HD' Hkey) as <-.
  split; [done|]. unfold dispatch_key in Hkey.
  do 2 apply append_cancel_l in Hkey.
  apply append_same_length in Hkey as [Ht Hti]; [|done].
  split; [done|]. by apply (append_cancel_l "-").
Qed.

(** Without the condition on the lengths two slots can share a key. *)
Lemma X9_same_slot_same_key :
  dispatch_key (mkdate 2026 3 1) (mkReminderItem "08:30" "Tea-time" "")
  = dispatch_key (mkdate 2026 3 1) (mkReminderItem "08:30-Tea" "time" "")
  ∧ dispatch_key (mkdate 2026 3 1) entry_0830
    = dispatch_key (mkdate 2026 3 1) entry_0830_other_text
  ∧ title entry_0830 = title entry_0830_other_text.
Proof.
  split; [reflexivity|]. split; [reflexivity|].
  apply (X9_key_tells_slots_apart (mkdate 2026 3 1) (mkdate 2026 3 1)
           entry_0830 entry_0830_other_text);
    [unfold valid_date; cbn; lia | unfold valid_date; cbn; lia
     | reflexivity | reflexivity].
Defined.

(** X10: the twelve-hour time shown in a message loses nothing: for
    clock readings with hour 0..23 and minute 0..59 the text of
    [%I:%M %p] has an hour between 01 and 12 and determines the hour and
    the minute, so two readings show the same time in the message
    exactly when they have the same "HH:MM". *)
Theorem X10_human_time_is_lossless t t' :
  valid_clock t → valid_clock t' →
  1 <= hour12 (dt_hour t) <= 12
  ∧ (strftime_IMp t = strftime_IMp t' →
     dt_hour t = dt_hour t' ∧ dt_minute t = dt_minute t')
  ∧ (strftime_IMp t = strftime_IMp t' ↔ strftime_HM t = strftime_HM t').
Proof.
  intros Ht Ht'.
  pose proof (strftime_IMp_inj t t' Ht Ht') as Hinj.
  destruct Ht as [Hh Hm], Ht' as [Hh' Hm'].
  pose proof (hour12_range _ Hh) as R.
  split; [exact R|]. split; [exact Hinj|]. split.
  - intros H. destruct (Hinj H) as [H1 H2]. unfold strftime_HM. by rewrite H1, H2.
  - unfold strftime_HM, strftime_IMp. intros H.
    apply fmt02_inj in H as [H1 H]; [|lia..]. apply String_tail in H.
    apply fmt02_inj in H as [H2 _]; [|lia..]. by rewrite H1, H2.
Qed.

Lemma X10_noon_and_midnight :
  valid_clock (mkdatetime 2026 3 1 0 5 0 0)
  ∧ valid_clock (mkdatetime 2026 3 1 12 5 0 0)
  ∧ strftime_IMp (mkdatetime 2026 3 1 0 5 0 0) = "12:05 AM"
  ∧ strftime_IMp (mkdatetime 2026 3 1 12 5 0 0) = "12:05 PM"
  ∧ strftime_IMp (mkdatetime 2026 3 1 20 15 0 0) = "08:15 PM"
  ∧ 1 <= hour12 (dt_hour (mkdatetime 2026 3 1 0 5 0 0)) <= 12.
Proof.
  assert (valid_clock (mkdatetime 2026 3 1 0 5 0 0)) as H1
    by (unfold valid_clock; cbn; lia).
  assert (valid_clock (mkdatetime 2026 3 1 12 5 0 0)) as H2
    by (unfold valid_clock; cbn; lia).
  split; [exact H1|]. split; [exact H2|].
  split; [reflexivity|]. split; [reflexivity|]. split; [reflexivity|].
  exact (proj1 (X10_human_time_is_lossless _ _ H1 H2)).
Defined.

(** ** What a run dispatches and logs *)

Section Attempts.

Variable config : AppConfig.
Variable c : client.
Variable now_local : datetime.
Variable current_hm : string.

Abbreviation today := (datetime_date now_local).
Abbreviation loop := (for_items config c now_local today current_hm).

Ltac loop_head item sent :=
  destruct (decide (time_24h item = current_hm)) as [Htime|Htime];
  [ destruct (decide (dispatch_key today item ∈ sent)) as [Hin|Hin];
    [ rewrite (for_items_already_sent _ _ _ _ _ _ _ Htime Hin)
    | rewrite (for_items_attempt _ _ _ _ _ _ _ Htime Hin); cbv zeta;
      cbn [ending after events]; rewrite attempt_events ]
  | rewrite (for_items_other_time _ _ _ _ _ _ _ Htime) ].

(** Every event of the inner loop belongs to the attempt for a due
    entry of the list whose key was not in the ledger. *)
Lemma for_items_event e items sent :
  e ∈ events (loop items sent) →
  ∃ item, item ∈ items ∧ time_24h item = current_hm
          ∧ (dispatch_key today item ∉ sent)
          ∧ e ∈ [LogAttempt (dispatch_key today item); Dispatch now_local item;
                 match request config c now_local item with
                 | Returned => LogSuccess (dispatch_key today item)
                 | Raised exc => LogFailed (dispatch_key today item) exc
                 end].
Proof.
  revert sent. induction items as [|item rest IH]; intros sent.
  { intros H. by apply elem_of_nil in H. }
  assert (∀ sent' : gset string, sent ⊆ sent' →
            e ∈ events (loop rest sent') →
            ∃ it, it ∈ item :: rest ∧ time_24h it = current_hm
                  ∧ (dispatch_key today it ∉ sent)
                  ∧ e ∈ [LogAttempt (dispatch_key today it); Dispatch now_local it;
                         match request config c now_local it with
                         | Returned => LogSuccess (dispatch_key today it)
                         | Raised exc => LogFailed (dispatch_key today it) exc
                         end]) as Hrest.
  { intros sent' Hsub He. destruct (IH sent' He) as (it & ? & ? & Hnot & ?).
    exists it. split_and!; [by right|done| |done].
    intros Hk. apply Hnot, Hsub, Hk. }
  loop_head item sent.
  - by apply Hrest.
  - intros He. apply elem_of_app in He as [He|He].
    + exists item. split_and!; [by left|done|done|exact He].
    + apply (Hrest ({[dispatch_key today item]} ∪ sent)); [|done].
      apply union_subseteq_r.
  - by apply Hrest.
Qed.

Lemma logged_attempts_app k tr1 tr2 :
  logged_attempts k (tr1 ++ tr2)
  = (logged_attempts k tr1 + logged_attempts k tr2)%nat.
Proof. unfold logged_attempts. by rewrite List.filter_app, length_app. Qed.

Lemma logged_successes_app k tr1 tr2 :
  logged_successes k (tr1 ++ tr2)
  = (logged_successes k tr1 + logged_successes k tr2)%nat.
Proof. unfold logged_successes. by rewrite List.filter_app, length_app. Qed.

Lemma logged_failures_app k tr1 tr2 :
  logged_failures k (tr1 ++ tr2)
  = (logged_failures k tr1 + logged_failures k tr2)%nat.
Proof. unfold logged_failures. by rewrite List.filter_app, length_app. Qed.

(** One attempt: one "attempting" line, one call, one outcome line. *)
Lemma attempt_lines k item :
  let tr := [LogAttempt (dispatch_key today item); Dispatch now_local item;
             match trigger_event c now_local item config with
             | Returned => LogSuccess (dispatch_key today item)
             | Raised exc => LogFailed (dispatch_key today item) exc
             end] in
  logged_attempts k tr = attempts_under k tr
  ∧ attempts_under k tr = (logged_successes k tr + logged_failures k tr)%nat.
Proof.
  cbv zeta. unfold logged_attempts, attempts_under, logged_successes, logged_failures.
  cbn [List.filter dispatched_key].
  rewrite (bool_decide_eq_false_2 (None = Some k)) by done.
  rewrite (bool_decide_eq_false_2 (Dispatch now_local item = LogAttempt k)) by done.
  rewrite (bool_decide_eq_false_2 (LogAttempt _ = LogSuccess k)) by done.
  rewrite (bool_decide_eq_false_2 (Dispatch now_local item = LogSuccess k)) by done.
  destruct (decide (dispatch_key today item = k)) as [Hk|Hk].
  - rewrite (bool_decide_eq_true_2 (LogAttempt _ = LogAttempt k)) by congruence.
    rewrite (bool_decide_eq_true_2 (Some _ = Some k)) by congruence.
    destruct (trigger_event _ _ _ _); cbn [dispatched_key].
    + rewrite (bool_decide_eq_false_2 (None = Some k)) by done.
      rewrite (bool_decide_eq_false_2 (LogSuccess _ = LogAttempt k)) by done.
      by rewrite (bool_decide_eq_true_2 (LogSuccess _ = LogSuccess k)) by congruence.
    + rewrite (bool_decide_eq_false_2 (None = Some k)) by done.
      rewrite (bool_decide_eq_false_2 (LogFailed _ _ = LogAttempt k)) by done.
      rewrite (bool_decide_eq_false_2 (LogFailed _ _ = LogSuccess k)) by done.
      by rewrite (bool_decide_eq_true_2 (dispatch_key today item = k)) by done.
  - rewrite (bool_decide_eq_false_2 (LogAttempt _ = LogAttempt k)) by congruence.
    rewrite (bool_decide_eq_false_2 (Some _ = Some k)) by congruence.
    destruct (trigger_event _ _ _ _); cbn [dispatched_key].
    + rewrite (bool_decide_eq_false_2 (None = Some k)) by done.
      rewrite (bool_decide_eq_false_2 (LogSuccess _ = LogAttempt k)) by done.
      by rewrite (bool_decide_eq_false_2 (LogSuccess _ = LogSuccess k)) by congruence.
    + rewrite (bool_decide_eq_false_2 (None = Some k)) by done.
      rewrite (bool_decide_eq_false_2 (LogFailed _ _ = LogAttempt k)) by done.
      rewrite (bool_decide_eq_false_2 (LogFailed _ _ = LogSuccess k)) by done.
      by rewrite (bool_decide_eq_false_2 (dispatch_key today item = k)) by done.
Qed.

Lemma for_items_lines k items sent :
  logged_attempts k (events (loop items sent))
  = attempts_under k (events (loop items sent))
  ∧ attempts_under k (events (loop items sent))
    = (logged_successes k (events (loop items sent))
       + logged_failures k (events (loop items sent)))%nat.
Proof.
  revert sent. induction items as [|item rest IH]; intros sent; [done|].
  loop_head item sent; try apply IH.
  rewrite logged_attempts_app, attempts_under_app, logged_successes_app,
    logged_failures_app.
  destruct (attempt_lines k item) as [A1 A2]. cbv zeta in A1, A2.
  destruct (IH ({[dispatch_key today item]} ∪ sent)) as [I1 I2].
  rewrite A1, I1. split; [done|]. rewrite A2, I2. lia.
Qed.

End Attempts.

Section RunEvents.

Variable config : AppConfig.
Variable plan : list ReminderItem.

Abbreviation attempt_events_at := (attempt_events_at config).

Lemma iteration_event e p s :
  e ∈ events (iteration config plan p s) →
  e = Sleep (poll_interval_seconds config)
  ∨ waiting config p = false
    ∧ ∃ item, item ∈ plan ∧ time_24h item = observed_hm p
              ∧ e ∈ attempt_events_at p item.
Proof.
  destruct (waiting config p) eqn:Hw.
  - rewrite (iteration_waiting _ _ _ _ Hw). cbn [events].
    intros H%nap_event. by left.
  - rewrite (iteration_active _ _ _ _ Hw). cbv zeta. cbn [events].
    intros [H|H%nap_event]%elem_of_app; [|by left].
    right. split; [done|]. unfold observed_date in H.
    apply for_items_event in H as (item & ? & ? & _ & ?). by exists item.
Qed.

Lemma run_polls_event e ps s :
  e ∈ events (run_polls config plan ps s) →
  e = Sleep (poll_interval_seconds config)
  ∨ ∃ p item, p ∈ ps ∧ waiting config p = false ∧ item ∈ plan
              ∧ time_24h item = observed_hm p ∧ e ∈ attempt_events_at p item.
Proof.
  revert s. induction ps as [|p ps IH]; intros s.
  { intros H. by apply elem_of_nil in H. }
  destruct (run_polls_cons config plan p ps s) as (ps' & Hps' & _ & ->).
  intros [H|H]%elem_of_app.
  - apply iteration_event in H as [H|(Hw & item & ? & ? & ?)]; [by left|].
    right. exists p, item. split_and!; [by left|done..].
  - destruct Hps' as [-> | ->]; [|by apply elem_of_nil in H].
    apply IH in H as [H|(q & item & ? & ? & ? & ? & ?)]; [by left|].
    right. exists q, item. split_and!; [by right|done..].
Qed.

Lemma iteration_lines k p s :
  logged_attempts k (events (iteration config plan p s))
  = attempts_under k (events (iteration config plan p s))
  ∧ attempts_under k (events (iteration config plan p s))
    = (logged_successes k (events (iteration config plan p s))
       + logged_failures k (events (iteration config plan p s)))%nat.
Proof.
  destruct (nap_no_line config k) as (N1 & N2 & N3).
  destruct (waiting config p) eqn:Hw.
  - rewrite (iteration_waiting _ _ _ _ Hw). cbn [events].
    by rewrite N1, N2, N3, nap_no_attempt.
  - rewrite (iteration_active _ _ _ _ Hw). cbv zeta. cbn [events].
    rewrite logged_attempts_app, attempts_under_app, logged_successes_app,
      logged_failures_app, N1, N2, N3, nap_no_attempt.
    unfold observed_date.
    destruct (for_items_lines config (poll_client p)
                (replace_second_microsecond (clock_now p)) (observed_hm p) k plan
                (sent_keys (day_boundary
                              (datetime_date (replace_second_microsecond (clock_now p)))
                              s))) as [L1 L2].
    rewrite L1. split; [done|]. rewrite L2. lia.
Qed.

Lemma run_polls_lines k ps s :
  logged_attempts k (events (run_polls config plan ps s))
  = attempts_under k (events (run_polls config plan ps s))
  ∧ attempts_under k (events (run_polls config plan ps s))
    = (logged_successes k (events (run_polls config plan ps s))
       + logged_failures k (events (run_polls config plan ps s)))%nat.
Proof.
  revert s. induction ps as [|p ps IH]; intros s; [done|].
  destruct (run_polls_cons config plan p ps s) as (ps' & Hps' & _ & ->).
  rewrite logged_attempts_app, attempts_under_app, logged_successes_app,
    logged_failures_app.
  destruct (iteration_lines k p s) as [L1 L2].
  assert (∀ s',
    logged_attempts k (events (run_polls config plan ps' s'))
    = attempts_under k (events (run_polls config plan ps' s'))
    ∧ attempts_under k (events (run_polls config plan ps' s'))
      = (logged_successes k (events (run_polls config plan ps' s'))
         + logged_failures k (events (run_polls config plan ps' s')))%nat) as IH'
    by (destruct Hps' as [-> | ->]; [exact IH|done]).
  destruct (IH' (after (iteration config plan p s))) as [I1 I2].
  rewrite L1, I1. split; [done|]. rewrite L2, I2. lia.
Qed.

End RunEvents.

(** X11: in any run, from any loop state, every call of
    [trigger_event] is made for an entry of the plan, at a poll of the
    run, with that poll's clock reading cut to the minute, at the
    entry's own time of day and on a date that is not before the start
    date.  With hours and minutes in range the entry's time is a text
    "HH:MM" with HH in 00..23 and MM in 00..59; an entry written in
    another way ("8:30", "24:00") is never dispatched. *)
Theorem X11_every_dispatch config plan ps s t item :
  Dispatch t item ∈ events (run_polls config plan ps s) →
  ∃ p, p ∈ ps
       ∧ t = replace_second_microsecond (clock_now p)
       ∧ item ∈ plan
       ∧ time_24h item = strftime_HM t
       ∧ date_lt (datetime_date t) (start_date config) = false
       ∧ (valid_clock (clock_now p) →
          ∃ h m, 0 <= h < 24 ∧ 0 <= m < 60 ∧ time_24h item = hhmm h m).
Proof.
  intros H. apply run_polls_event in H as [H|(p & it & Hp & Hw & Hit & Hhm & H)];
    [discriminate|].
  unfold attempt_events_at in H.
  apply elem_of_cons in H as [H|H]; [discriminate|].
  apply elem_of_cons in H as [H|H].
  - injection H as Ht Hitem. subst t item. exists p.
    split; [done|]. split; [done|]. split; [done|]. split; [exact Hhm|].
    split; [exact Hw|].
    intros [Hh Hm]. exists (dt_hour (clock_now p)), (dt_minute (clock_now p)).
    split; [exact Hh|]. split; [exact Hm|]. rewrite Hhm. reflexivity.
  - apply list_elem_of_singleton in H. by destruct (request _ _ _ _).
Qed.

Lemma X11_dispatch_of_the_second_day :
  Dispatch (mkdatetime 2026 3 2 8 30 0 0) entry_0830
    ∈ events (run_polls (example_config (mkdate 2026 2 21)) [entry_0830]
                scenario_A_two_days initial_state)
  ∧ ∃ p, p ∈ scenario_A_two_days
         ∧ mkdatetime 2026 3 2 8 30 0 0 = replace_second_microsecond (clock_now p).
Proof.
  assert (Dispatch (mkdatetime 2026 3 2 8 30 0 0) entry_0830
            ∈ events (run_polls (example_config (mkdate 2026 2 21)) [entry_0830]
                        scenario_A_two_days initial_state)) as H.
  { apply list_elem_of_In. vm_compute. tauto. }
  split; [exact H|].
  destruct (X11_every_dispatch _ _ _ _ _ _ H) as (p & Hp & Ht & _).
  by exists p.
Defined.

(** X12: the log tells what happened.  In any run a "Reminder success"
    line for a key is there only if the client, called at a poll of the
    run with the sender, the recipient and the message of a plan entry
    with that key, returned; a "Reminder failed" line only if that call
    raised the exception the line carries.  And for every key there are
    as many "Attempting" lines as calls, and as many calls as success
    and failure lines together. *)
Theorem X12_log_lines config plan ps s :
  (∀ k, LogSuccess k ∈ events (run_polls config plan ps s) →
        ∃ p item, p ∈ ps ∧ item ∈ plan
                  ∧ k = dispatch_key (observed_date p) item
                  ∧ request config (poll_client p)
                      (replace_second_microsecond (clock_now p)) item = Returned)
  ∧ (∀ k exc, LogFailed k exc ∈ events (run_polls config plan ps s) →
              ∃ p item, p ∈ ps ∧ item ∈ plan
                        ∧ k = dispatch_key (observed_date p) item
                        ∧ request config (poll_client p)
                            (replace_second_microsecond (clock_now p)) item
                          = Raised exc)
  ∧ (∀ k, logged_attempts k (events (run_polls config plan ps s))
          = attempts_under k (events (run_polls config plan ps s))
          ∧ attempts_under k (events (run_polls config plan ps s))
            = (logged_successes k (events (run_polls config plan ps s))
               + logged_failures k (events (run_polls config plan ps s)))%nat).
Proof.
  split_and!.
  - intros k H.
    apply run_polls_event in H as [H|(p & it & Hp & Hw & Hit & Hhm & H)];
      [discriminate|].
    exists p, it. unfold attempt_events_at in H.
    apply elem_of_cons in H as [H|H]; [discriminate|].
    apply elem_of_cons in H as [H|H]; [discriminate|].
    apply list_elem_of_singleton in H.
    destruct (request _ _ _ _); [|discriminate].
    injection H as ->. done.
  - intros k exc H.
    apply run_polls_event in H as [H|(p & it & Hp & Hw & Hit & Hhm & H)];
      [discriminate|].
    exists p, it. unfold attempt_events_at in H.
    apply elem_of_cons in H as [H|H]; [discriminate|].
    apply elem_of_cons in H as [H|H]; [discriminate|].
    apply list_elem_of_singleton in H.
    destruct (request _ _ _ _); [discriminate|].
    injection H as -> ->. done.
  - intros k. apply run_polls_lines.
Qed.

(** ** Plans with one entry per time of day *)

Section DistinctTimes.

Lemma due_entries_distinct plan E :
  NoDup (time_24h <$> plan) → E ∈ plan →
  due_entries plan (time_24h E) = [E].
Proof.
  unfold due_entries. induction plan as [|item rest IH]; intros Hnd Hel.
  { by apply elem_of_nil in Hel. }
  rewrite fmap_cons in Hnd. apply NoDup_cons in Hnd as [Hhead Hnd].
  apply elem_of_cons in Hel as [->|Hel].
  - rewrite filter_cons_True by done. f_equal.
    clear IH Hnd. induction rest as [|x rest IH]; [done|].
    rewrite fmap_cons in Hhead. apply not_elem_of_cons in Hhead as [Hx Hrest].
    rewrite filter_cons_False by (by intros ?). by apply IH.
  - rewrite filter_cons_False; [by apply IH|].
    intros Heq. apply Hhead. rewrite Heq. apply list_elem_of_fmap. by exists E.
Qed.

End DistinctTimes.

(** X13: in a plan whose times of day are pairwise distinct, as they
    are in [DAILY_PLAN], an iteration on or after the start date at the
    minute of an entry whose key is not in the day's ledger dispatches
    that entry and no other, and the ledger afterwards is the one before
    with that key added. *)
Theorem X13_one_entry_per_minute config plan E p s :
  NoDup (time_24h <$> plan) →
  E ∈ plan →
  waiting config p = false →
  time_24h E = observed_hm p →
  dispatch_key (observed_date p) E ∉ ledger_on (observed_date p) s →
  dispatched_items (events (iteration config plan p s)) = [E]
  ∧ sent_keys (after (iteration config plan p s))
    = {[ dispatch_key (observed_date p) E ]} ∪ ledger_on (observed_date p) s.
Proof.
  intros Hnd Hel Hw Hhm Hk.
  rewrite (iteration_active _ _ _ _ Hw). cbv zeta. cbn [events after sent_keys].
  rewrite day_boundary_keys, dispatched_items_app, nap_no_dispatch, app_nil_r.
  unfold observed_date in *.
  rewrite for_items_due_entries, <- Hhm, (due_entries_distinct plan E Hnd Hel), Hhm.
  rewrite for_items_attempt by done. cbv zeta. cbn [events after for_items].
  by rewrite app_nil_r, dispatched_items_attempt.
Qed.

Lemma X13_daily_plan :
  NoDup (time_24h <$> DAILY_PLAN)
  ∧ dispatched_items
      (events (iteration (example_config (mkdate 2026 2 21)) DAILY_PLAN
                 (march 1 22 30 41 client_ok) initial_state))
    = [mkReminderItem "22:30" "Ecosprin before sleep"
         "It is bedtime. Please take ecosprin medicine before sleep."].
Proof.
  assert (NoDup (time_24h <$> DAILY_PLAN)) as Hnd.
  { apply (bool_decide_unpack _). by vm_compute. }
  split; [exact Hnd|].
  apply (X13_one_entry_per_minute (example_config (mkdate 2026 2 21)) DAILY_PLAN
           (mkReminderItem "22:30" "Ecosprin before sleep"
              "It is bedtime. Please take ecosprin medicine before sleep.")
           (march 1 22 30 41 client_ok) initial_state Hnd).
  - apply list_elem_of_In. cbn. tauto.
  - reflexivity.
  - reflexivity.
  - unfold ledger_on. rewrite bool_decide_eq_true_2 by done.
    apply not_elem_of_empty.
Defined.

(** Every entry of the program's plan can come due: its time of day is
    the "HH:MM" of an hour and a minute in range. *)
Example daily_plan_times :
  time_24h <$> DAILY_PLAN
  = [hhmm 8 30; hhmm 9 30; hhmm 10 30; hhmm 11 30; hhmm 13 30; hhmm 15 0;
     hhmm 17 0; hhmm 20 15; hhmm 20 30; hhmm 22 0; hhmm 22 30].
Proof. reflexivity. Qed.

(** ** The ledger in a run from the start *)

Section Ledger.

Variable config : AppConfig.
Variable plan : list ReminderItem.

Lemma size_list_to_set_le (l : list string) :
  (size (list_to_set l : gset string) <= length l)%nat.
Proof.
  induction l as [|x l IH]; [done|].
  cbn [list_to_set length]. rewrite size_union_alt, size_singleton.
  pose proof (subseteq_size (list_to_set l ∖ {[x]}) (list_to_set l : gset string)
                (subseteq_difference_l _ _ _ (reflexivity _))).
  lia.
Qed.

Lemma ledger_ok_iteration p s :
  ledger_ok config plan s → ledger_ok config plan (after (iteration config plan p s)).
Proof.
  intros Hok. destruct (waiting config p) eqn:Hw.
  { by rewrite (iteration_waiting _ _ _ _ Hw). }
  unfold ledger_ok. rewrite (iteration_date _ _ _ _ Hw).
  split; [exact Hw|].
  rewrite (iteration_active _ _ _ _ Hw). cbv zeta. cbn [after sent_keys].
  rewrite day_boundary_keys. intros k Hk. unfold observed_date in Hk.
  apply for_items_keys_origin in Hk as [Hk|(item & Hit & _ & ->)].
  - unfold ledger_on in Hk. case_bool_decide as Hd; [by apply not_elem_of_empty in Hk|].
    unfold ledger_ok in Hok. rewrite Hd in Hok. by apply Hok.
  - apply elem_of_list_to_set, list_elem_of_fmap. by exists item.
Qed.

Lemma ledger_ok_run ps s :
  ledger_ok config plan s → ledger_ok config plan (after (run_polls config plan ps s)).
Proof.
  revert s. induction ps as [|p ps IH]; intros s Hok; [done|].
  destruct (run_polls_cons config plan p ps s) as (ps' & Hps' & -> & _).
  destruct Hps' as [-> | ->]; [by apply IH, ledger_ok_iteration|].
  cbn [run_polls after]. by apply ledger_ok_iteration.
Qed.

End Ledger.

(** X14: in every run from the start of the loop, whatever the clock
    does, the ledger holds keys of plan entries for the one recorded
    date only (none when no date is recorded), that date is not before
    the start date, and the ledger never holds more keys than the plan
    has entries. *)
Theorem X14_ledger_stays_small config plan ps :
  ledger_ok config plan (after (run_polls config plan ps initial_state))
  ∧ (size (sent_keys (after (run_polls config plan ps initial_state)))
     <= length plan)%nat
  ∧ (∀ k, k ∈ sent_keys (after (run_polls config plan ps initial_state)) →
          ∃ D item,
            last_seen_date (after (run_polls config plan ps initial_state)) = Some D
            ∧ date_lt D (start_date config) = false
            ∧ item ∈ plan ∧ k = dispatch_key D item).
Proof.
  assert (ledger_ok config plan (after (run_polls config plan ps initial_state)))
    as Hok by (by apply ledger_ok_run).
  split; [exact Hok|]. unfold ledger_ok in Hok.
  destruct (last_seen_date (after (run_polls config plan ps initial_state))) as [D|].
  - destruct Hok as [Hstart Hsub]. split.
    + etrans; [apply subseteq_size, Hsub|].
      etrans; [apply size_list_to_set_le|]. by rewrite length_fmap.
    + intros k Hk. apply Hsub, elem_of_list_to_set, list_elem_of_fmap in Hk
        as (item & -> & Hit).
      by exists D, item.
  - rewrite Hok. split; [rewrite size_empty; lia|].
    intros k Hk. by apply not_elem_of_empty in Hk.
Qed.

(** ** The message *)

(** X15: the message tells reminders apart.  For clock readings with
    hour and minute in range and titles without a line break, two
    messages are the same text only if they show the same time of day
    and carry the same title and the same details. *)
Theorem X15_message_tells_reminders_apart item item' t t' :
  valid_clock t → valid_clock t' →
  one_line (title item) = true → one_line (title item') = true →
  build_whatsapp_message item t = build_whatsapp_message item' t' →
  strftime_HM t = strftime_HM t'
  ∧ title item = title item' ∧ details item = details item'.
Proof.
  intros Ht Ht' Hl Hl'. unfold build_whatsapp_message. cbv zeta. intros H.
  apply append_cancel_l in H.
  apply append_same_length in H as [Htime H];
    [|by rewrite !strftime_IMp_length].
  apply append_cancel_l in H.
  apply split_at_line_break in H as [Htitle H]; [|done..].
  change (details item +:+ (newline +:+ "Please take care.")
          = details item' +:+ (newline +:+ "Please take care.")) in H.
  apply append_cancel_r in H.
  destruct (strftime_IMp_inj t t' Ht Ht' Htime) as [H1 H2].
  unfold strftime_HM. by rewrite H1, H2.
Qed.

Lemma X15_same_minute_same_message :
  build_whatsapp_message entry_0830 (mkdatetime 2026 3 1 8 30 0 0)
  = "Reminder (08:30 AM): Morning dry fruits and seeds" +:+ newline
    +:+ "Please take soaked almonds." +:+ newline +:+ "Please take care."
  ∧ build_whatsapp_message entry_0830 (mkdatetime 2026 3 1 8 30 0 0)
    = build_whatsapp_message entry_0830 (mkdatetime 2026 3 2 8 30 59 1)
  ∧ strftime_HM (mkdatetime 2026 3 1 8 30 0 0)
    = strftime_HM (mkdatetime 2026 3 2 8 30 59 1).
Proof.
  split; [reflexivity|]. split; [reflexivity|].
  apply (X15_message_tells_reminders_apart entry_0830 entry_0830
           (mkdatetime 2026 3 1 8 30 0 0) (mkdatetime 2026 3 2 8 30 59 1));
    [unfold valid_clock; cbn; lia | unfold valid_clock; cbn; lia
     | reflexivity | reflexivity | reflexivity].
Defined.

(** ** The trace of an iteration, and what is never caught up *)

Section Trace.

Variable config : AppConfig.
Variable plan : list ReminderItem.

Lemma for_items_trace c now_local current_hm items sent :
  events (for_items config c now_local (datetime_date now_local) current_hm
            items sent)
  = flat_map
      (fun item =>
         [LogAttempt (dispatch_key (datetime_date now_local) item);
          Dispatch now_local item;
          match request config c now_local item with
          | Returned => LogSuccess (dispatch_key (datetime_date now_local) item)
          | Raised exc => LogFailed (dispatch_key (datetime_date now_local) item) exc
          end])
      (dispatched_items
         (events (for_items config c now_local (datetime_date now_local)
                    current_hm items sent))).
Proof.
  revert sent. induction items as [|item rest IH]; intros sent; [done|].
  destruct (decide (time_24h item = current_hm)) as [Htime|Htime].
  - destruct (decide (dispatch_key (datetime_date now_local) item ∈ sent)) as [Hin|Hin].
    + rewrite (for_items_already_sent _ _ _ _ _ _ _ Htime Hin). apply IH.
    + rewrite (for_items_attempt _ _ _ _ _ _ _ Htime Hin). cbv zeta. cbn [events].
      rewrite dispatched_items_app, dispatched_items_attempt. cbn [app flat_map].
      rewrite <- IH. by rewrite attempt_events.
  - rewrite (for_items_other_time _ _ _ _ _ _ _ Htime). apply IH.
Qed.

Lemma run_polls_dispatched_at ps s item :
  item ∈ dispatched_items (events (run_polls config plan ps s)) →
  ∃ t, Dispatch t item ∈ events (run_polls config plan ps s).
Proof.
  induction (events (run_polls config plan ps s)) as [|e tr IH];
    [intros H; by apply elem_of_nil in H|].
  destruct e as [k|t it|k|k x|n]; cbn [dispatched_items]; intros H;
    try (destruct (IH H) as [t' Ht']; exists t'; by right).
  apply elem_of_cons in H as [->|H].
  - exists t. by left.
  - destruct (IH H) as [t' Ht']. exists t'. by right.
Qed.

Lemma iteration_trace p s :
  events (iteration config plan p s)
  = flat_map (attempt_events_at config p)
      (dispatched_items (events (iteration config plan p s)))
    ++ match time_sleep (poll_interval_seconds config) with
       | Normal => [Sleep (poll_interval_seconds config)]
       | Propagates _ => []
       end.
Proof.
  rewrite <- pause_events. destruct (waiting config p) eqn:Hw.
  - rewrite (iteration_waiting _ _ _ _ Hw). cbn [events].
    by rewrite nap_no_dispatch.
  - rewrite (iteration_active _ _ _ _ Hw). cbv zeta. cbn [events].
    rewrite dispatched_items_app, nap_no_dispatch, app_nil_r. f_equal.
    unfold observed_date. apply for_items_trace.
Qed.


End Trace.



(** X17: nothing is caught up.  In any run, from any loop state, an
    entry is dispatched only at a poll that observes its own time of
    day; if no poll of the run observes that "HH:MM" (the loop slept
    through the minute, or was not running), the entry is not
    dispatched at all. *)
Theorem X17_no_catch_up config plan ps s E :
  Forall (fun p => observed_hm p ≠ time_24h E) ps →
  (E ∉ dispatched_items (events (run_polls config plan ps s)))
  ∧ ∀ D, attempts_for D E (events (run_polls config plan ps s)) = 0%nat.
Proof.
  intros Hps.
  assert (∀ t, Dispatch t E ∉ events (run_polls config plan ps s)) as Hno.
  { intros t H.
    apply run_polls_event in H as [H|(p & it & Hp & Hw & Hit & Hhm & H)];
      [discriminate|].
    rewrite Forall_forall in Hps. apply (Hps p Hp).
    unfold attempt_events_at in H.
    apply elem_of_cons in H as [H|H]; [discriminate|].
    apply elem_of_cons in H as [H|H].
    - injection H as _ ->. done.
    - apply list_elem_of_singleton in H. by destruct (request _ _ _ _). }
  split.
  - intros H. apply run_polls_dispatched_at in H as [t Ht]. by apply (Hno t).
  - intros D. unfold attempts_for.
    induction (events (run_polls config plan ps s)) as [|e tr IH]; [done|].
    cbn [List.filter]. rewrite bool_decide_eq_false_2.
    + apply IH. intros t Ht. apply (Hno t). by right.
    + destruct e as [k|t it|k|k x|n]; try done.
      cbn [dispatched_pair]. intros [= _ ->]. apply (Hno t). by left.
Qed.

(** Polls every three minutes from 08:28 pass over 08:30. *)
Lemma X17_slept_through_0830 :
  Forall (fun p => observed_hm p ≠ time_24h entry_0830)
    [march 1 8 28 50 client_ok; march 1 8 31 50 client_ok; march 1 8 34 50 client_ok]
  ∧ attempts_for (mkdate 2026 3 1) entry_0830
      (events (run_polls (example_config (mkdate 2026 2 21)) [entry_0830]
                 [march 1 8 28 50 client_ok; march 1 8 31 50 client_ok;
                  march 1 8 34 50 client_ok] initial_state)) = 0%nat.
Proof.
  assert (Forall (fun p => observed_hm p ≠ time_24h entry_0830)
            [march 1 8 28 50 client_ok; march 1 8 31 50 client_ok;
             march 1 8 34 50 client_ok]) as H
    by (repeat constructor; discriminate).
  split; [exact H|].
  apply (proj2 (X17_no_catch_up (example_config (mkdate 2026 2 21)) [entry_0830]
                  _ initial_state entry_0830 H)).
Defined.

(** ** A poll interval that [time.sleep] refuses *)

(** X18: with a poll interval that [time.sleep] refuses (negative, or
    above 9223372036 seconds), the first iteration still makes its
    attempts; then its [time.sleep] raises, outside any [try], and the
    loop ends: the run is that one iteration, it has taken no pause,
    and no later poll gets a turn, whatever the clock and the clients
    do. *)
Theorem X18_refused_interval_ends_the_run config plan p ps s :
  poll_interval_seconds config < 0 ∨ sleep_max < poll_interval_seconds config →
  run_polls config plan (p :: ps) s = iteration config plan p s
  ∧ (∃ exc, ending (run_polls config plan (p :: ps) s) = Propagates exc)
  ∧ sleeps (events (run_polls config plan (p :: ps) s)) = 0%nat
  ∧ events (run_polls config plan (p :: ps) s)
    = flat_map (attempt_events_at config p)
        (dispatched_items (events (iteration config plan p s))).
Proof.
  intros H. destruct (time_sleep_raises _ H) as [exc Hz].
  rewrite (run_polls_cons_raises config plan exc p ps s Hz).
  split_and!.
  - done.
  - exists exc. by rewrite iteration_ending.
  - by apply (iteration_no_sleep config plan exc).
  - rewrite iteration_trace at 1. by rewrite Hz, app_nil_r.
Qed.

(** POLL_INTERVAL_SECONDS=-1: the 08:30 reminder goes out, and the
    program stops with [ValueError] before the second poll. *)
Lemma X18_negative_interval :
  (poll_interval_seconds (config_with_interval (-1)) < 0
   ∨ sleep_max < poll_interval_seconds (config_with_interval (-1)))
  ∧ run_polls (config_with_interval (-1)) [entry_0830]
      [march 1 8 30 2 client_ok; march 1 8 31 2 client_ok] initial_state
    = iteration (config_with_interval (-1)) [entry_0830]
        (march 1 8 30 2 client_ok) initial_state
  ∧ sleeps (events (run_polls (config_with_interval (-1)) [entry_0830]
                      [march 1 8 30 2 client_ok; march 1 8 31 2 client_ok]
                      initial_state)) = 0%nat.
Proof.
  assert (poll_interval_seconds (config_with_interval (-1)) < 0
          ∨ sleep_max < poll_interval_seconds (config_with_interval (-1))) as H
    by (left; reflexivity).
  destruct (X18_refused_interval_ends_the_run (config_with_interval (-1))
              [entry_0830] (march 1 8 30 2 client_ok)
              [march 1 8 31 2 client_ok] initial_state H) as (H1 & _ & H3 & _).
  split; [exact H|]. split; [exact H1|exact H3].
Defined.

Example negative_interval_trace :
  ending (run_polls (config_with_interval (-1)) [entry_0830]
            [march 1 8 30 2 client_ok; march 1 8 31 2 client_ok] initial_state)
  = Propagates "ValueError: sleep length must be non-negative"
  ∧ events (run_polls (config_with_interval (-1)) [entry_0830]
              [march 1 8 30 2 client_ok; march 1 8 31 2 client_ok] initial_state)
    = [LogAttempt "2026-03-01-08:30-Morning dry fruits and seeds";
       Dispatch (mkdatetime 2026 3 1 8 30 0 0) entry_0830;
       LogSuccess "2026-03-01-08:30-Morning dry fruits and seeds"]
  ∧ ending (run_polls (config_with_interval (10 ^ 30)) [entry_0830]
              [march 1 8 30 2 client_ok; march 1 8 31 2 client_ok] initial_state)
    = Propagates "OverflowError: timestamp too large to convert to C _PyTime_t".
Proof. by vm_compute. Qed.
